(** * Admission webhooks and CronTab controller: a shallow embedding

    The development follows three Python programs of the repository:

    - [image-validator.py]: the image-validation admission webhook
      (module [ImageValidator]),
    - [validate-pod.py]: the runAsNonRoot admission webhook
      (module [PodValidator]),
    - [crontab-controller.py]: the controller that watches CronTab custom
      resources and creates CronJobs (module [CronTabController]).

    The programs work on values decoded from JSON and rely on Python's dynamic
    behaviour ([dict.get], subscripting, truthiness, exceptions caught by
    [except Exception]).  Module [Py] models that layer; the three program
    modules are written on top of it, statement by statement. *)

From Stdlib Require Import ZArith String Ascii List Bool.
From stdpp Require Import gmap strings list fin_maps.

Set Warnings "-register-all".
Local Open Scope string_scope.

(** ** The Python layer *)

Module Py.

(** A value decoded from JSON: [None], [bool], [int], [str], [list], [dict].
    Numbers are integers; a JSON number with a fraction is outside the model.
    A [dict] is a finite map: the programs only look keys up. *)
Inductive json : Type :=
| JNull
| JBool (b : bool)
| JNum (n : Z)
| JStr (s : string)
| JArr (l : list json)
| JObj (m : gmap string json).

(** The exceptions the programs can meet.  [TypeError] records the operation
    and the operand types; [External] is an exception raised by a collaborator
    (the HTTP framework, the cluster API client). *)
Inductive exn : Type :=
| KeyError (key : string)
| AttributeError (ty attr : string)
| TypeError (op : string) (tys : list string)
| UnboundLocalError (var : string)
| External (what : string).

Inductive result (A : Type) : Type :=
| Ok (a : A)
| Raise (e : exn).
Arguments Ok {A} a.
Arguments Raise {A} e.

#[export] Instance result_ret : MRet result := @Ok.
#[export] Instance result_bind : MBind result := λ A B f r,
  match r with
  | Ok a => f a
  | Raise e => Raise e
  end.

(** The text Python produces for a value or an exception is the
    interpreter's: [py_repr v] stands for [repr(v)] and [exn_str e] for
    [str(e)].  Nothing proved below depends on what they print. *)
Class PyText : Type := {
  py_repr : json → string;
  exn_str : exn → string
}.

(** [str(v)], as an f-string formats a value: a [str] is inserted as it is. *)
Definition py_str `{PyText} (v : json) : string :=
  match v with
  | JStr s => s
  | _ => py_repr v
  end.

Definition type_name (v : json) : string :=
  match v with
  | JNull => "NoneType"
  | JBool _ => "bool"
  | JNum _ => "int"
  | JStr _ => "str"
  | JArr _ => "list"
  | JObj _ => "dict"
  end.

(** Truth value of a value, as [if v] and [not v] test it. *)
Definition truthy (v : json) : bool :=
  match v with
  | JNull => false
  | JBool b => b
  | JNum n => negb (n =? 0)%Z
  | JStr s => negb (String.eqb s "")
  | JArr l => match l with [] => false | _ :: _ => true end
  | JObj m => negb (bool_decide (m = ∅))
  end.

(** [sub in s] on strings. *)
Fixpoint is_substring (sub s : string) : bool :=
  String.prefix sub s ||
  match s with
  | EmptyString => false
  | String _ t => is_substring sub t
  end.

(** [s.split(sep)] for a one-character separator: never the empty list. *)
Fixpoint split_char (sep : ascii) (s : string) : list string :=
  match s with
  | EmptyString => [""]
  | String c t =>
      if Ascii.eqb c sep then "" :: split_char sep t
      else match split_char sep t with
           | [] => [String c ""]
           | h :: r => String c h :: r
           end
  end.

(** [sep.join(l)]. *)
Definition join (sep : string) (l : list string) : string := String.concat sep l.

(** [v == s] for a string literal [s]. *)
Definition eq_str (s : string) (v : json) : bool :=
  match v with
  | JStr t => String.eqb t s
  | _ => false
  end.

(** [v.get(k, d)]: only a [dict] has [get]. *)
Definition dict_get (v : json) (k : string) (d : json) : result json :=
  match v with
  | JObj m => Ok (default d (m !! k))
  | _ => Raise (AttributeError (type_name v) "get")
  end.

(** [v[k]] for a string key [k]. *)
Definition getitem (v : json) (k : string) : result json :=
  match v with
  | JObj m =>
      match m !! k with
      | Some x => Ok x
      | None => Raise (KeyError k)
      end
  | _ => Raise (TypeError "subscript" [type_name v; "str"])
  end.

(** [k in v] for a string [k]: key of a dict, element of a list, substring of
    a string. *)
Definition contains (k : string) (v : json) : result bool :=
  match v with
  | JObj m => Ok (bool_decide (is_Some (m !! k)))
  | JArr l => Ok (existsb (eq_str k) l)
  | JStr s => Ok (is_substring k s)
  | _ => Raise (TypeError "in" [type_name v])
  end.

(** [v.split(sep)]: only a [str] has [split]. *)
Definition py_split (v : json) (sep : ascii) : result (list string) :=
  match v with
  | JStr s => Ok (split_char sep s)
  | _ => Raise (AttributeError (type_name v) "split")
  end.

Definition as_int (v : json) : option Z :=
  match v with
  | JNum n => Some n
  | JBool b => Some (if b then 1 else 0)%Z
  | _ => None
  end.

(** [a + b]: concatenation of two lists or two strings, sum of two numbers
    (a [bool] counts as an [int]). *)
Definition py_add (a b : json) : result json :=
  match a, b with
  | JArr x, JArr y => Ok (JArr (x ++ y))
  | JStr x, JStr y => Ok (JStr (x ++ y))
  | _, _ =>
      match as_int a, as_int b with
      | Some x, Some y => Ok (JNum (x + y))
      | _, _ => Raise (TypeError "+" [type_name a; type_name b])
      end
  end.

(** The items a [for] loop takes from [v].  A string yields its characters
    (here its bytes; every item is a [str] either way), a dict its keys. *)
Definition py_iter (v : json) : result (list json) :=
  match v with
  | JArr l => Ok l
  | JStr s => Ok ((λ c, JStr (String c "")) <$> list_ascii_of_string s)
  | JObj m => Ok ((λ kv, JStr kv.1) <$> map_to_list m)
  | _ => Raise (TypeError "iter" [type_name v])
  end.

(** [repr] of a list of strings that hold no quote, backslash or control
    character, as the configured registries do. *)
Definition repr_plain_list (l : list string) : string :=
  "[" ++ join ", " ((λ s, "'" ++ s ++ "'") <$> l) ++ "]".

End Py.
Import Py.

(** ** The AdmissionReview reply, shared by both webhooks *)

Record admission_response : Type := {
  uid : json;
  allowed : bool;
  message : string          (* response.status.message *)
}.

Record admission_review : Type := {
  apiVersion : string;
  kind : string;
  response : admission_response
}.

(** The dict literal every [return jsonify({...})] of the webhooks builds. *)
Definition review (u : json) (a : bool) (msg : string) : admission_review :=
  {| apiVersion := "admission.k8s.io/v1";
     kind := "AdmissionReview";
     response := {| uid := u; allowed := a; message := msg |} |}.

(** What [request.get_json()] gives the handler: a decoded body, or an
    exception of the framework (in which case [req] is never bound). *)
Inductive inbound : Type :=
| Body (req : json)
| GetJsonRaises (e : exn).

(** The [except Exception as e:] clause of both [validate] handlers.  An
    exception raised here is not caught by anything in the program: the
    framework answers with a server error instead of a review. *)
Definition on_exception `{PyText} (inb : inbound) (e : exn) : result admission_review :=
  match inb with
  | GetJsonRaises _ => Raise (UnboundLocalError "req")
  | Body req =>
      request ← dict_get req "request" (JObj ∅);
      u ← dict_get request "uid" (JStr "");
      Ok (review u false ("Validation error: " ++ exn_str e))
  end.

Definition try_except `{PyText} (inb : inbound) (body : json → result admission_review)
  : result admission_review :=
  match inb with
  | GetJsonRaises e => on_exception inb e
  | Body req =>
      match body req with
      | Ok r => Ok r
      | Raise e => on_exception inb e
      end
  end.

(** ** image-validator.py *)

Module ImageValidator.
Section WithText.
Context `{PyText}.

Definition APPROVED_REGISTRIES : list string :=
  ["docker.io"; "gcr.io"; "k8s.gcr.io"; "quay.io"; "registry.k8s.io"; "ghcr.io"].

Definition BLOCKED_TAGS : list string := ["latest"].

Definition exempt_namespace : string := "image-validator-demo".

(** [x in L] for a list of strings. *)
Definition in_list (x : string) (L : list string) : bool := existsb (String.eqb x) L.

Definition container_prefix (container_name : json) : string :=
  "Container '" ++ py_str container_name ++ "': ".

Definition validate_image_registry (image container_name : json) : result (bool * string) :=
  if negb (truthy image) then
    Ok (false, container_prefix container_name ++ "Image is required")
  else
    parts ← py_split image "/"%char;
    if (1 <? length parts)%nat then
      let registry := hd "" parts in
      if is_substring "." registry || is_substring ":" registry then
        if negb (in_list registry APPROVED_REGISTRIES) then
          Ok (false, container_prefix container_name ++ "Registry '" ++ registry
                       ++ "' not in approved list: " ++ repr_plain_list APPROVED_REGISTRIES)
        else Ok (true, "")
      else Ok (true, "")
    else Ok (true, "").

(** The first component of the result is [tag_blocked]: [True] is the
    failure. *)
Definition validate_image_tag (image container_name : json) : result (bool * string) :=
  if negb (truthy image) then
    Ok (false, container_prefix container_name ++ "Image is required")
  else
    has_colon ← contains ":" image;
    tag ← (if has_colon : bool then parts ← py_split image ":"%char; Ok (List.last parts "")
           else Ok "latest");
    if in_list tag BLOCKED_TAGS then
      Ok (true, container_prefix container_name ++ "Tag '" ++ tag
                  ++ "' is blocked. Use specific version tags.")
    else Ok (false, "").

(** [if not d.get(k): errors.append(label)]. *)
Definition require_field (d : json) (k label : string) (errors : list string)
  : result (list string) :=
  v ← dict_get d k JNull;
  Ok (if negb (truthy v) then (errors ++ [label])%list else errors).

Definition validate_resources (container container_name : json) : result (bool * string) :=
  resources ← dict_get container "resources" (JObj ∅);
  let errors := [] in
  limits ← dict_get resources "limits" (JObj ∅);
  errors ← require_field limits "cpu" "CPU limits" errors;
  errors ← require_field limits "memory" "memory limits" errors;
  requests ← dict_get resources "requests" (JObj ∅);
  errors ← require_field requests "cpu" "CPU requests" errors;
  errors ← require_field requests "memory" "memory requests" errors;
  match errors with
  | _ :: _ => Ok (false, container_prefix container_name ++ "Missing " ++ join ", " errors)
  | [] => Ok (true, "")
  end.

Definition validate_security_context (container container_name : json)
  : result (bool * string) :=
  security_context ← dict_get container "securityContext" (JObj ∅);
  let errors := [] in
  v ← dict_get security_context "runAsNonRoot" (JBool false);
  let errors := if negb (truthy v) then (errors ++ ["runAsNonRoot=true"])%list else errors in
  v ← dict_get security_context "allowPrivilegeEscalation" (JBool true);
  let errors := if truthy v then (errors ++ ["allowPrivilegeEscalation=false"])%list else errors in
  v ← dict_get security_context "readOnlyRootFilesystem" (JBool false);
  let errors := if negb (truthy v) then (errors ++ ["readOnlyRootFilesystem=true"])%list else errors in
  match errors with
  | _ :: _ => Ok (false, container_prefix container_name ++ "Required " ++ join ", " errors)
  | [] => Ok (true, "")
  end.

(** The body of [for container in all_containers:]. *)
Definition check_container (container : json) (validation_errors : list string)
  : result (list string) :=
  container_name ← dict_get container "name" (JStr "unknown");
  image ← dict_get container "image" (JStr "");
  '(registry_approved, registry_msg) ← validate_image_registry image container_name;
  let validation_errors :=
    if negb registry_approved then (validation_errors ++ [registry_msg])%list
    else validation_errors in
  '(tag_blocked, tag_msg) ← validate_image_tag image container_name;
  let validation_errors :=
    if tag_blocked : bool then (validation_errors ++ [tag_msg])%list else validation_errors in
  '(resources_valid, resources_msg) ← validate_resources container container_name;
  let validation_errors :=
    if negb resources_valid then (validation_errors ++ [resources_msg])%list
    else validation_errors in
  '(security_valid, security_msg) ← validate_security_context container container_name;
  let validation_errors :=
    if negb security_valid then (validation_errors ++ [security_msg])%list
    else validation_errors in
  Ok validation_errors.

Fixpoint check_containers (all_containers : list json) (validation_errors : list string)
  : result (list string) :=
  match all_containers with
  | [] => Ok validation_errors
  | container :: rest =>
      validation_errors ← check_container container validation_errors;
      check_containers rest validation_errors
  end.

(** [GET /] and [GET /health]: the payloads given to [jsonify]. *)
Definition root : json :=
  JObj (list_to_map [("status", JStr "healthy");
                     ("message", JStr "Image Validator Webhook is running");
                     ("version", JStr "1.0.0")]).

Definition health : json := JObj (list_to_map [("status", JStr "healthy")]).

Definition invalid_request : admission_review := review (JStr "") false "Invalid request".

(** The [try:] block of [validate]. *)
Definition validate_body (req : json) : result admission_review :=
  if negb (truthy req) then Ok invalid_request
  else
    has_request ← contains "request" req;
    if negb has_request then Ok invalid_request
    else
      request ← getitem req "request";
      u ← getitem request "uid";
      request ← getitem req "request";
      object ← getitem request "object";
      pod_metadata ← dict_get object "metadata" (JObj ∅);
      pod_namespace ← dict_get pod_metadata "namespace" (JStr "");
      pod_name ← dict_get pod_metadata "name" (JStr "");
      if eq_str exempt_namespace pod_namespace then
        Ok (review u true "Skipped validation in image-validator-demo namespace")
      else
        request ← getitem req "request";
        object ← getitem request "object";
        pod_spec ← getitem object "spec";
        containers ← dict_get pod_spec "containers" (JArr []);
        init_containers ← dict_get pod_spec "initContainers" (JArr []);
        all_containers ← py_add containers init_containers;
        items ← py_iter all_containers;
        validation_errors ← check_containers items [];
        match validation_errors with
        | _ :: _ => Ok (review u false (join " | " validation_errors))
        | [] => Ok (review u true "All validations passed")
        end.

Definition validate (inb : inbound) : result admission_review :=
  try_except inb validate_body.

End WithText.
End ImageValidator.

(** ** validate-pod.py *)

Module PodValidator.
Section WithText.
Context `{PyText}.

Definition exempt_namespace : string := "webhook-demo".

(** [GET /] and [GET /health]: the payloads given to [jsonify]. *)
Definition root : json :=
  JObj (list_to_map [("status", JStr "healthy");
                     ("message", JStr "Pod Validator Webhook is running")]).

Definition health : json := JObj (list_to_map [("status", JStr "healthy")]).

Definition invalid_request : admission_review := review (JStr "") false "Invalid request".

(** [for c in containers:] with its [break]; [allowed] and [msg] are the two
    variables the loop assigns. *)
Fixpoint check_containers (containers : list json) (allowed : bool) (msg : string)
  : result (bool * string) :=
  match containers with
  | [] => Ok (allowed, msg)
  | c :: rest =>
      sc ← dict_get c "securityContext" (JObj ∅);
      v ← dict_get sc "runAsNonRoot" (JBool false);
      if negb (truthy v) then
        name ← getitem c "name";
        Ok (false, "Container '" ++ py_str name ++ "' must set runAsNonRoot=true")
      else check_containers rest allowed msg
  end.

(** The [try:] block of [validate]. *)
Definition validate_body (req : json) : result admission_review :=
  if negb (truthy req) then Ok invalid_request
  else
    has_request ← contains "request" req;
    if negb has_request then Ok invalid_request
    else
      request ← getitem req "request";
      u ← getitem request "uid";
      request ← getitem req "request";
      object ← getitem request "object";
      pod_metadata ← dict_get object "metadata" (JObj ∅);
      pod_namespace ← dict_get pod_metadata "namespace" (JStr "");
      pod_name ← dict_get pod_metadata "name" (JStr "");
      if eq_str exempt_namespace pod_namespace then
        Ok (review u true "Skipped validation in webhook-demo namespace")
      else
        request ← getitem req "request";
        object ← getitem request "object";
        pod_spec ← getitem object "spec";
        containers ← dict_get pod_spec "containers" (JArr []);
        items ← py_iter containers;
        '(allowed, msg) ← check_containers items true "Pod is valid";
        Ok (review u allowed msg).

Definition validate (inb : inbound) : result admission_review :=
  try_except inb validate_body.

End WithText.
End PodValidator.

(** ** crontab-controller.py *)

Module CronTabController.

(** The objects of the cluster API client that [create_cronjob] builds.  The
    client's constructors are taken as plain record constructors: checks
    they may make on their arguments are not modelled. *)
Record V1Container : Type := {
  container_name : string;
  container_image : string;
  container_args : list string
}.

Record V1PodSpec : Type := {
  restart_policy : string;
  containers : list V1Container
}.

Record V1PodTemplateSpec : Type := { pod_template_spec : V1PodSpec }.
Record V1JobSpec : Type := { job_template_pod : V1PodTemplateSpec }.
Record V1JobTemplateSpec : Type := { job_template_spec : V1JobSpec }.

Record V1beta1CronJobSpec : Type := {
  schedule : json;
  job_template : V1JobTemplateSpec
}.

Record V1ObjectMeta : Type := { meta_name : string }.

Record V1beta1CronJob : Type := {
  metadata : V1ObjectMeta;
  spec : V1beta1CronJobSpec
}.

(** One [create_namespaced_cron_job(namespace=..., body=...)] call. *)
Record create_call : Type := {
  call_namespace : string;
  call_body : V1beta1CronJob
}.

(** The cluster's answer to a create call: [None] when it returns, the
    exception when it raises.  It may depend on the calls issued before. *)
Class ClusterAPI : Type :=
  create_namespaced_cron_job : list create_call → create_call → option exn.

(** An event of the watch stream: [event['type']] and [event['object']]. *)
Record event : Type := {
  type : string;
  object : json
}.

(** What the controller does to the outside: the create calls it has issued
    and the lines it has printed, oldest first. *)
Record world : Type := {
  calls : list create_call;
  stdout : list string
}.

Definition print (line : string) (w : world) : world :=
  {| calls := calls w; stdout := (stdout w ++ [line])%list |}.

Section WithCluster.
Context `{PyText} `{ClusterAPI}.

Definition cronjob_body (cron_name cron_expr msg : json) : V1beta1CronJob :=
  {| metadata := {| meta_name := py_str cron_name ++ "-job" |};
     spec :=
       {| schedule := cron_expr;
          job_template :=
            {| job_template_spec :=
                 {| job_template_pod :=
                      {| pod_template_spec :=
                           {| restart_policy := "OnFailure";
                              containers :=
                                [ {| container_name := "echo";
                                     container_image := "busybox";
                                     container_args :=
                                       ["/bin/sh"; "-c"; "echo " ++ py_str msg] |} ] |} |} |} |} |} |}.

(** The create call is issued inside [try:]; when it raises, the exception is
    printed and dropped. *)
Definition create_cronjob (cron_name cron_expr msg : json) (w : world) : world :=
  let body := cronjob_body cron_name cron_expr msg in
  let call := {| call_namespace := "default"; call_body := body |} in
  let w' := {| calls := (calls w ++ [call])%list; stdout := stdout w |} in
  match create_namespaced_cron_job (calls w) call with
  | None => print ("✅ Created CronJob: " ++ py_str cron_name ++ "-job") w'
  | Some e => print ("⚠️ Failed to create job: " ++ exn_str e) w'
  end.

(** The body of [for event in w.stream(...):]. *)
Definition handle_event (ev : event) (w : world) : result world :=
  let cr := object ev in
  let etype := type ev in
  md ← getitem cr "metadata";
  name ← getitem md "name";
  sp ← getitem cr "spec";
  cronSpec ← getitem sp "cronSpec";
  sp ← getitem cr "spec";
  message ← getitem sp "message";
  if String.eqb etype "ADDED" then
    Ok (create_cronjob name cronSpec message
          (print ("📥 Detected new CronTab: " ++ py_str name) w))
  else Ok w.

(** The loop over the events the stream delivers.  The result is the world at
    the moment the loop ends and the exception that ended it, if one did
    ([None]: the stream was closed). *)
Fixpoint watch_loop (events : list event) (w : world) : world * option exn :=
  match events with
  | [] => (w, None)
  | ev :: rest =>
      match handle_event ev w with
      | Ok w' => watch_loop rest w'
      | Raise e => (w, Some e)
      end
  end.

(** [main], once the client configuration is loaded. *)
Definition main (events : list event) (w : world) : world * option exn :=
  watch_loop events (print "🚀 Watching CronTab custom resources..." w).

End WithCluster.
End CronTabController.

(** ** Vocabulary of the specification *)

(** A stand-in for the interpreter's texts, to run the programs on concrete
    inputs; the examples below use string names, which it leaves alone. *)
Definition sample_text : PyText :=
  {| py_repr v := "<" ++ type_name v ++ ">";
     exn_str e :=
       match e with
       | KeyError k => "'" ++ k ++ "'"
       | AttributeError t a => "'" ++ t ++ "' object has no attribute '" ++ a ++ "'"
       | TypeError op _ => "unsupported operation " ++ op
       | UnboundLocalError x => "cannot access local variable '" ++ x ++ "'"
       | External what => what
       end |}.

(** A dict literal. *)
Definition dict (l : list (string * json)) : json := JObj (list_to_map l).

(** The character [c] occurs in [s]. *)
Definition has_char (c : ascii) (s : string) : Prop := c ∈ list_ascii_of_string s.

Definition is_dict (v : json) : bool :=
  match v with JObj _ => true | _ => false end.

Definition is_string (v : json) : bool :=
  match v with JStr _ => true | _ => false end.

Definition is_boolean (v : json) : bool :=
  match v with JBool _ => true | _ => false end.

(** An optional field: absent, or present with a value that satisfies [p]. *)
Definition optional (p : json → bool) (o : option json) : bool :=
  match o with
  | None => true
  | Some v => p v
  end.

(** The field [k] of the mapping stored under [section], when both exist. *)
Definition nested (c : gmap string json) (section k : string) : option json :=
  match c !! section with
  | Some (JObj m) => m !! k
  | _ => None
  end.

(** [securityContext] is absent or a mapping whose three flags are optional
    booleans. *)
Definition typed_security_context (c : gmap string json) : bool :=
  optional is_dict (c !! "securityContext")
  && optional is_boolean (nested c "securityContext" "runAsNonRoot")
  && optional is_boolean (nested c "securityContext" "allowPrivilegeEscalation")
  && optional is_boolean (nested c "securityContext" "readOnlyRootFilesystem").

(** The three settings the security-context rule asks for. *)
Definition hardened (c : gmap string json) : Prop :=
  nested c "securityContext" "runAsNonRoot" = Some (JBool true)
  ∧ nested c "securityContext" "allowPrivilegeEscalation" = Some (JBool false)
  ∧ nested c "securityContext" "readOnlyRootFilesystem" = Some (JBool true).

(** The quantity stored under [resources.<section>.<k>], when there is one. *)
Definition quantity (c : gmap string json) (section k : string) : option json :=
  match c !! "resources" with
  | Some (JObj r) => nested r section k
  | _ => None
  end.

(** The four quantities the resource rule asks for, with the words the rule
    uses for each, in the order it checks them. *)
Definition required_quantities : list (string * string * string) :=
  [("limits", "cpu", "CPU limits"); ("limits", "memory", "memory limits");
   ("requests", "cpu", "CPU requests"); ("requests", "memory", "memory requests")].

(** The quantities that are absent, whatever the present ones hold. *)
Definition missing_quantities (c : gmap string json) : list string :=
  omap (λ '(section, k, label),
          match quantity c section k with
          | None => Some label
          | Some _ => None
          end) required_quantities.

(** All four quantities are present. *)
Definition fully_specified (c : gmap string json) : Prop :=
  is_Some (quantity c "limits" "cpu") ∧ is_Some (quantity c "limits" "memory")
  ∧ is_Some (quantity c "requests" "cpu") ∧ is_Some (quantity c "requests" "memory").

(** The four validation rules and how the aggregator calls them. *)
Inductive rule : Type := Registry | Tag | Resources | SecurityContext.

Definition rules : list rule := [Registry; Tag; Resources; SecurityContext].

Definition name_of (container : json) : json :=
  match container with
  | JObj c => default (JStr "unknown") (c !! "name")
  | _ => JStr "unknown"
  end.

Definition image_of (container : json) : json :=
  match container with
  | JObj c => default (JStr "") (c !! "image")
  | _ => JStr ""
  end.

Definition run_rule `{PyText} (r : rule) (container : json) : result (bool * string) :=
  match r with
  | Registry => ImageValidator.validate_image_registry (image_of container) (name_of container)
  | Tag => ImageValidator.validate_image_tag (image_of container) (name_of container)
  | Resources => ImageValidator.validate_resources container (name_of container)
  | SecurityContext => ImageValidator.validate_security_context container (name_of container)
  end.

(** The flag that means failure: the tag rule answers [tag_blocked], the
    other three answer whether the container is acceptable. *)
Definition failure_flag (r : rule) : bool :=
  match r with
  | Tag => true
  | _ => false
  end.

Definition rule_fails `{PyText} (r : rule) (container : json) : Prop :=
  ∃ msg, run_rule r container = Ok (failure_flag r, msg).

(** The message of rule [r] on a container, when the rule fails. *)
Definition rule_failure `{PyText} (r : rule) (container : json) : list string :=
  match run_rule r container with
  | Ok (flag, msg) => if Bool.eqb flag (failure_flag r) then [msg] else []
  | Raise _ => []
  end.

Definition failure_messages `{PyText} (container : json) : list string :=
  flat_map (λ r, rule_failure r container) rules.

(** A container the rules can read: a mapping whose image is absent or a
    string, whose [resources], [limits], [requests] and [securityContext] are
    absent or mappings. *)
Definition well_formed_container (container : json) : bool :=
  match container with
  | JObj c =>
      optional is_string (c !! "image")
      && optional is_dict (c !! "resources")
      && optional is_dict (nested c "resources" "limits")
      && optional is_dict (nested c "resources" "requests")
      && optional is_dict (c !! "securityContext")
  | _ => false
  end.

(** The AdmissionRequest a review envelope carries. *)
Record admission_request : Type := {
  request_uid : json;
  request_namespace : json;
  request_containers : list json;
  request_init_containers : list json
}.

Definition dict_or_empty (o : option json) : option (gmap string json) :=
  match o with
  | None => Some ∅
  | Some (JObj m) => Some m
  | Some _ => None
  end.

Definition list_or_empty (o : option json) : option (list json) :=
  match o with
  | None => Some []
  | Some (JArr l) => Some l
  | Some _ => None
  end.

(** Decoding of a structurally well-formed envelope: [request.uid],
    [request.object.metadata.namespace] (metadata and namespace optional),
    [request.object.spec.containers] and [.initContainers] (both optional). *)
Definition as_request (req : json) : option admission_request :=
  match req with
  | JObj r =>
      match r !! "request" with
      | Some (JObj rq) =>
          match rq !! "uid", rq !! "object" with
          | Some u, Some (JObj ob) =>
              match dict_or_empty (ob !! "metadata"), ob !! "spec" with
              | Some meta, Some (JObj sp) =>
                  match list_or_empty (sp !! "containers"),
                        list_or_empty (sp !! "initContainers") with
                  | Some cs, Some ics =>
                      Some {| request_uid := u;
                              request_namespace := default (JStr "") (meta !! "namespace");
                              request_containers := cs;
                              request_init_containers := ics |}
                  | _, _ => None
                  end
              | _, _ => None
              end
          | _, _ => None
          end
      | _ => None
      end
  | _ => None
  end.

(** The containers of a request in the order the aggregator visits them:
    the regular containers, then the init containers. *)
Definition all_containers (a : admission_request) : list json :=
  request_containers a ++ request_init_containers a.

(** The review the aggregator answers for a list of failure messages. *)
Definition verdict (u : json) (failures : list string) : admission_review :=
  match failures with
  | [] => review u true "All validations passed"
  | _ :: _ => review u false (join " | " failures)
  end.

(** The approved registries as the registry rule's message prints them. *)
Definition approved_list_text : string :=
  "['docker.io', 'gcr.io', 'k8s.gcr.io', 'quay.io', 'registry.k8s.io', 'ghcr.io']".

(** The envelope [r] with the pod's [spec] replaced by [sp]. *)
Definition with_spec (r rq ob : gmap string json) (sp : json) : json :=
  JObj (<["request" := JObj (<["object" := JObj (<["spec" := sp]> ob)]> rq)]> r).

(** The pod spec inside a CronJob. *)
Definition pod_of (job : CronTabController.V1beta1CronJob) : CronTabController.V1PodSpec :=
  CronTabController.pod_template_spec
    (CronTabController.job_template_pod
       (CronTabController.job_template_spec
          (CronTabController.job_template (CronTabController.spec job)))).

(** ** Sample inputs *)

(** A cluster that accepts every create call. *)
Definition accepting_cluster : CronTabController.ClusterAPI := λ _ _, None.

Definition full_resources : json :=
  dict [("limits", dict [("cpu", JStr "500m"); ("memory", JStr "128Mi")]);
        ("requests", dict [("cpu", JStr "250m"); ("memory", JStr "64Mi")])].

Definition hardened_context : json :=
  dict [("runAsNonRoot", JBool true);
        ("allowPrivilegeEscalation", JBool false);
        ("readOnlyRootFilesystem", JBool true)].

(** A container that passes the resource and security-context rules. *)
Definition container (name image : string) : json :=
  dict [("name", JStr name); ("image", JStr image);
        ("resources", full_resources); ("securityContext", hardened_context)].

Definition envelope (u ns : string) (containers init_containers : list json) : json :=
  dict [("request",
         dict [("uid", JStr u);
               ("object",
                dict [("metadata", dict [("name", JStr "pod"); ("namespace", JStr ns)]);
                      ("spec", dict [("containers", JArr containers);
                                     ("initContainers", JArr init_containers)])])])].

Definition untagged_app : json := container "app" "docker.io/library/app".
Definition foreign_setup : json := container "setup" "evil.io/setup:1.0".

(** One regular container without a tag, one init container from a registry
    that is not approved. *)
Definition two_failures : json := envelope "u1" "default" [untagged_app] [foreign_setup].

Definition two_failures_view : admission_request :=
  {| request_uid := JStr "u1";
     request_namespace := JStr "default";
     request_containers := [untagged_app];
     request_init_containers := [foreign_setup] |}.

(** A container that sets runAsNonRoot and readOnlyRootFilesystem and leaves
    allowPrivilegeEscalation unset. *)
Definition escalation_unset : gmap string json :=
  list_to_map [("name", JStr "web");
               ("securityContext", dict [("runAsNonRoot", JBool true);
                                         ("readOnlyRootFilesystem", JBool true)])].

(** A container that specifies limits.cpu and nothing else. *)
Definition only_cpu_limit : gmap string json :=
  list_to_map [("name", JStr "web");
               ("resources", dict [("limits", dict [("cpu", JStr "500m")])])].

Definition two_failures_message : string :=
  "Container 'app': Tag 'latest' is blocked. Use specific version tags."
  ++ " | "
  ++ "Container 'setup': Registry 'evil.io' not in approved list: "
  ++ "['docker.io', 'gcr.io', 'k8s.gcr.io', 'quay.io', 'registry.k8s.io', 'ghcr.io']".

(** A pod in an exempt namespace whose only container is [null], on which
    every rule would raise. *)
Definition exempt_metadata (ns : string) : gmap string json :=
  list_to_map [("name", JStr "pod"); ("namespace", JStr ns)].

Definition exempt_object (ns : string) : gmap string json :=
  list_to_map [("metadata", JObj (exempt_metadata ns));
               ("spec", dict [("containers", JArr [JNull])])].

Definition exempt_request (ns : string) : gmap string json :=
  list_to_map [("uid", JStr "u2"); ("object", JObj (exempt_object ns))].

Definition exempt_envelope (ns : string) : gmap string json :=
  list_to_map [("request", JObj (exempt_request ns))].

(** The CronTab resource "demo" of the reconciliation scenario. *)
Definition demo_metadata : gmap string json :=
  list_to_map [("namespace", JStr "default"); ("name", JStr "demo")].

Definition demo_spec : gmap string json :=
  list_to_map [("cronSpec", JStr "*/1 * * * *"); ("message", JStr "hi")].

Definition demo_crontab : gmap string json :=
  list_to_map [("metadata", JObj demo_metadata); ("spec", JObj demo_spec)].

Definition demo_event (etype : string) : CronTabController.event :=
  {| CronTabController.type := etype; CronTabController.object := JObj demo_crontab |}.

Definition quiet_world : CronTabController.world :=
  {| CronTabController.calls := []; CronTabController.stdout := [] |}.

(** A CronTab resource without spec.message, reported as MODIFIED. *)
Definition silent_crontab : gmap string json :=
  list_to_map [("metadata", JObj demo_metadata);
               ("spec", dict [("cronSpec", JStr "*/1 * * * *")])].

Definition silent_event : CronTabController.event :=
  {| CronTabController.type := "MODIFIED";
     CronTabController.object := JObj silent_crontab |}.

(** ** Vocabulary for the properties beyond the claims *)

(** A body the handlers answer with "Invalid request": a falsy one, or one in
    which "request" is not found (as a key of a mapping, an element of a list,
    a substring of a string). *)
Definition invalid_body (req : json) : bool :=
  negb (truthy req)
  || match req with
     | JObj r => match r !! "request" with None => true | Some _ => false end
     | JArr l => negb (existsb (eq_str "request") l)
     | JStr s => negb (is_substring "request" s)
     | _ => false
     end.

(** A body on which the handlers raise: a truthy one that cannot be searched
    (a number, [true]), or one in which "request" is found without the body
    being a mapping whose "request" is a mapping. *)
Definition escaping_body (req : json) : bool :=
  truthy req
  && match req with
     | JObj r =>
         match r !! "request" with
         | Some (JObj _) => false
         | Some _ => true
         | None => false
         end
     | JArr l => existsb (eq_str "request") l
     | JStr s => is_substring "request" s
     | JNull => false
     | JBool _ | JNum _ => true
     end.

(** The request as validate-pod.py reads it: it never looks at
    [initContainers]. *)
Record pod_request : Type := {
  pod_uid : json;
  pod_namespace : json;
  pod_containers : list json
}.

Definition as_pod_request (req : json) : option pod_request :=
  match req with
  | JObj r =>
      match r !! "request" with
      | Some (JObj rq) =>
          match rq !! "uid", rq !! "object" with
          | Some u, Some (JObj ob) =>
              match dict_or_empty (ob !! "metadata"), ob !! "spec" with
              | Some meta, Some (JObj sp) =>
                  match list_or_empty (sp !! "containers") with
                  | Some cs =>
                      Some {| pod_uid := u;
                              pod_namespace := default (JStr "") (meta !! "namespace");
                              pod_containers := cs |}
                  | None => None
                  end
              | _, _ => None
              end
          | _, _ => None
          end
      | _ => None
      end
  | _ => None
  end.

(** The value validate-pod.py tests on a container: securityContext's
    runAsNonRoot, [False] when either is absent. *)
Definition run_as_non_root_setting (c : gmap string json) : json :=
  default (JBool false) (nested c "securityContext" "runAsNonRoot").

(** A container validate-pod.py accepts: a mapping whose securityContext is
    absent or a mapping, with a true runAsNonRoot. *)
Definition runs_as_non_root (container : json) : bool :=
  match container with
  | JObj c =>
      optional is_dict (c !! "securityContext") && truthy (run_as_non_root_setting c)
  | _ => false
  end.

(** A container validate-pod.py objects to: as above, but runAsNonRoot is
    absent or not true. *)
Definition runs_as_root (container : json) : bool :=
  match container with
  | JObj c =>
      optional is_dict (c !! "securityContext")
      && negb (truthy (run_as_non_root_setting c))
  | _ => false
  end.

(** [resources], [limits] and [requests] are absent or mappings; nothing is
    asked of the quantities. *)
Definition resources_shape (c : gmap string json) : bool :=
  optional is_dict (c !! "resources")
  && optional is_dict (nested c "resources" "limits")
  && optional is_dict (nested c "resources" "requests").

(** The quantities that are absent or falsy (an empty string, 0, null), with
    the words the rule uses, in the order it checks them. *)
Definition unusable_quantities (c : gmap string json) : list string :=
  omap (λ '(section, k, label),
          match quantity c section k with
          | Some v => if truthy v then None else Some label
          | None => Some label
          end) required_quantities.

(** The three settings of the security context, the value each must have and
    the words the rule uses, in the order it checks them. *)
Definition required_settings : list (string * bool * string) :=
  [("runAsNonRoot", true, "runAsNonRoot=true");
   ("allowPrivilegeEscalation", false, "allowPrivilegeEscalation=false");
   ("readOnlyRootFilesystem", true, "readOnlyRootFilesystem=true")].

(** The settings that are not set to the required value. *)
Definition unmet_settings (c : gmap string json) : list string :=
  omap (λ '(k, required, label),
          match nested c "securityContext" k with
          | Some (JBool b) => if Bool.eqb b required then None else Some label
          | _ => Some label
          end) required_settings.

(** An image that holds a ':' and whose text after the last ':' is not
    "latest".  That text may be empty, as in "nginx:", and may hold a '/', as
    in "localhost:5000/app". *)
Definition explicitly_tagged (image : string) : Prop :=
  ∃ a t, image = a ++ ":" ++ t ∧ ¬ has_char ":" t ∧ t ≠ "latest".

(** An image whose registry, when it names one the way the registry rule
    looks for it, is approved: if the image holds a '/' and the text before
    its first '/' holds '.' or ':', that text is an approved registry.  Nothing
    is asked of an image without '/', such as "nginx:1.21". *)
Definition from_approved_registry (image : string) : Prop :=
  ∀ registry rest,
    image = registry ++ "/" ++ rest →
    ¬ has_char "/" registry →
    has_char "." registry ∨ has_char ":" registry →
    registry ∈ ImageValidator.APPROVED_REGISTRIES.

(** A quantity that is present and not empty. *)
Definition usable (o : option json) : Prop := ∃ v, o = Some v ∧ truthy v = true.

(** All four quantities are present and not empty. *)
Definition fully_provided (c : gmap string json) : Prop :=
  usable (quantity c "limits" "cpu") ∧ usable (quantity c "limits" "memory")
  ∧ usable (quantity c "requests" "cpu") ∧ usable (quantity c "requests" "memory").

(** What image-validator.py asks of a container it lets through. *)
Definition compliant (container : json) : Prop :=
  ∃ c image,
    container = JObj c
    ∧ c !! "image" = Some (JStr image)
    ∧ explicitly_tagged image
    ∧ from_approved_registry image
    ∧ usable (quantity c "limits" "cpu") ∧ usable (quantity c "limits" "memory")
    ∧ usable (quantity c "requests" "cpu") ∧ usable (quantity c "requests" "memory")
    ∧ (typed_security_context c = true → hardened c).

(** A container whose security context is typed. *)
Definition typed_container (container : json) : bool :=
  match container with
  | JObj c => typed_security_context c
  | _ => false
  end.

(** The name, schedule and message of the CronTab an event carries, when its
    object is a mapping that holds the three as strings. *)
Definition crontab_of (ev : CronTabController.event) : option (string * string * string) :=
  match CronTabController.object ev with
  | JObj obj =>
      match nested obj "metadata" "name", nested obj "spec" "cronSpec",
            nested obj "spec" "message" with
      | Some (JStr name), Some (JStr cron), Some (JStr msg) => Some (name, cron, msg)
      | _, _, _ => None
      end
  | _ => None
  end.

Definition well_formed_event (ev : CronTabController.event) : bool :=
  match crontab_of ev with
  | Some _ => true
  | None => false
  end.

(** The create call an event asks for: one for an ADDED event, in namespace
    "default", none for an event of another type. *)
Definition call_for `{PyText} (ev : CronTabController.event)
  : option CronTabController.create_call :=
  if String.eqb (CronTabController.type ev) "ADDED" then
    match crontab_of ev with
    | Some (name, cron, msg) =>
        Some {| CronTabController.call_namespace := "default";
                CronTabController.call_body :=
                  CronTabController.cronjob_body (JStr name) (JStr cron) (JStr msg) |}
    | None => None
    end
  else None.

(** A cluster that refuses every create call. *)
Definition rejecting_cluster : CronTabController.ClusterAPI :=
  λ _ _, Some (External "409 Conflict").

(** ** More sample inputs *)

(** A container image-validator.py finds nothing to say about. *)
Definition compliant_app : json := container "app" "docker.io/library/app:1.4".

Definition admitted : json := envelope "u3" "default" [compliant_app] [].

Definition admitted_view : admission_request :=
  {| request_uid := JStr "u3";
     request_namespace := JStr "default";
     request_containers := [compliant_app];
     request_init_containers := [] |}.

(** A container list with [null] in the middle. *)
Definition unreadable : json :=
  envelope "u4" "default" [untagged_app; JNull; foreign_setup] [].

Definition unreadable_view : admission_request :=
  {| request_uid := JStr "u4";
     request_namespace := JStr "default";
     request_containers := [untagged_app; JNull; foreign_setup];
     request_init_containers := [] |}.

Definition empty_pod : json := envelope "u5" "default" [] [].

Definition empty_pod_view : admission_request :=
  {| request_uid := JStr "u5";
     request_namespace := JStr "default";
     request_containers := [];
     request_init_containers := [] |}.

(** An envelope whose object has metadata but no spec. *)
Definition specless_metadata : gmap string json :=
  list_to_map [("namespace", JStr "default")].

Definition specless_object : gmap string json :=
  list_to_map [("metadata", JObj specless_metadata)].

Definition specless_request : gmap string json :=
  list_to_map [("uid", JStr "u6"); ("object", JObj specless_object)].

Definition specless_envelope : gmap string json :=
  list_to_map [("request", JObj specless_request)].

(** A container that only has a name. *)
Definition bare_container : gmap string json := list_to_map [("name", JStr "web")].

(** A container whose CPU limit is the empty string. *)
Definition empty_cpu_limit : gmap string json :=
  list_to_map
    [("name", JStr "web");
     ("resources",
      dict [("limits", dict [("cpu", JStr ""); ("memory", JStr "128Mi")]);
            ("requests", dict [("cpu", JStr "250m"); ("memory", JStr "64Mi")])])].

(** Containers for validate-pod.py. *)
Definition non_root_container : json :=
  dict [("name", JStr "web"); ("securityContext", dict [("runAsNonRoot", JBool true)])].

Definition root_container : gmap string json := list_to_map [("name", JStr "db")].

Definition nameless_container : gmap string json := list_to_map [("image", JStr "db:1")].

Definition root_pod : json :=
  envelope "u7" "default" [non_root_container; JObj root_container; JNull] [].

Definition root_pod_view : pod_request :=
  {| pod_uid := JStr "u7";
     pod_namespace := JStr "default";
     pod_containers := [non_root_container; JObj root_container; JNull] |}.

Definition nameless_pod : json :=
  envelope "u8" "default" [non_root_container; JObj nameless_container] [].

Definition nameless_pod_view : pod_request :=
  {| pod_uid := JStr "u8";
     pod_namespace := JStr "default";
     pod_containers := [non_root_container; JObj nameless_container] |}.

Definition non_root_pod : json := envelope "u9" "default" [non_root_container] [].

Definition non_root_pod_view : pod_request :=
  {| pod_uid := JStr "u9";
     pod_namespace := JStr "default";
     pod_containers := [non_root_container] |}.

(** A stream of three events on the CronTab "demo". *)
Definition demo_stream : list CronTabController.event :=
  [demo_event "ADDED"; demo_event "MODIFIED"; demo_event "ADDED"].

Definition demo_call : CronTabController.create_call :=
  {| CronTabController.call_namespace := "default";
     CronTabController.call_body :=
       CronTabController.cronjob_body (H := sample_text)
         (JStr "demo") (JStr "*/1 * * * *") (JStr "hi") |}.

(** ** Strings *)

Section Strings.

Lemma is_substring_char (c : ascii) (s : string) :
  is_substring (String c "") s = true ↔ has_char c s.
Proof.
  unfold has_char. induction s as [|a t IH]; simpl.
  - split; [discriminate | intros Hin; inversion Hin].
  - destruct (ascii_dec c a) as [->|Hne].
    + split; [intros _; left | intros _].
      destruct t; reflexivity.
    + simpl. rewrite IH. split.
      * intros Hin. right. exact Hin.
      * intros Hin. inversion Hin; subst; [contradiction | assumption].
Qed.

Lemma is_substring_char_false (c : ascii) (s : string) :
  ¬ has_char c s → is_substring (String c "") s = false.
Proof.
  intros Hno. destruct (is_substring (String c "") s) eqn:E; [|reflexivity].
  apply is_substring_char in E. contradiction.
Qed.

Lemma split_char_no_sep (sep : ascii) (s : string) :
  ¬ has_char sep s → split_char sep s = [s].
Proof.
  unfold has_char. induction s as [|a t IH]; simpl; intros Hno; [reflexivity|].
  destruct (Ascii.eqb_spec a sep) as [->|Hne].
  - exfalso. apply Hno. left.
  - rewrite IH; [reflexivity|]. intros Hin. apply Hno. right. exact Hin.
Qed.

Lemma split_char_first (sep : ascii) (r rest : string) :
  ¬ has_char sep r →
  split_char sep (r ++ String sep rest) = r :: split_char sep rest.
Proof.
  unfold has_char. induction r as [|a t IH]; simpl; intros Hno.
  - rewrite Ascii.eqb_refl. reflexivity.
  - destruct (Ascii.eqb_spec a sep) as [->|Hne].
    + exfalso. apply Hno. left.
    + rewrite IH; [reflexivity|]. intros Hin. apply Hno. right. exact Hin.
Qed.

Lemma split_char_cons (sep : ascii) (s : string) :
  ∃ h r, split_char sep s = h :: r.
Proof.
  induction s as [|a t [h [r IH]]]; simpl; [eauto|].
  destruct (Ascii.eqb a sep); [eauto|]. rewrite IH. eauto.
Qed.

Lemma truthy_str (s : string) : s ≠ "" → truthy (JStr s) = true.
Proof.
  intros Hne. simpl. destruct (String.eqb_spec s ""); [contradiction | reflexivity].
Qed.

Lemma in_list_elem_of (x : string) (L : list string) :
  ImageValidator.in_list x L = true ↔ x ∈ L.
Proof.
  unfold ImageValidator.in_list. rewrite existsb_exists. split.
  - intros [y [Hin Heq]]. apply String.eqb_eq in Heq. subst y.
    apply list_elem_of_In. exact Hin.
  - intros Hin. exists x. split; [apply list_elem_of_In; exact Hin | apply String.eqb_refl].
Qed.

End Strings.

(** ** The validation rules of image-validator.py *)

Section Rules.
Context `{PyText}.
Import ImageValidator.

#[local] Arguments in_list : simpl never.

Lemma app_sep_nonempty (r : string) (c : ascii) (rest : string) :
  r ++ String c rest ≠ "".
Proof. destruct r; discriminate. Qed.

(** C6.  An image that is not empty and holds no ':' gets the tag "latest",
    which is in the blocked tags: the tag rule answers [tag_blocked = True]
    with the message about tag 'latest'. *)
Theorem untagged_image_is_blocked (image : string) (container_name : json) :
  image ≠ "" →
  ¬ has_char ":" image →
  "latest" ∈ BLOCKED_TAGS
  ∧ validate_image_tag (JStr image) container_name
    = Ok (true, container_prefix container_name
                  ++ "Tag 'latest' is blocked. Use specific version tags.").
Proof.
  intros Hne Hno. split; [left|].
  unfold validate_image_tag. rewrite (truthy_str _ Hne). simpl.
  rewrite (is_substring_char_false _ _ Hno). reflexivity.
Qed.

Lemma approved_list_text_eq :
  repr_plain_list APPROVED_REGISTRIES = approved_list_text.
Proof. reflexivity. Qed.

Lemma registry_with_marker (registry rest : string) (container_name : json) :
  ¬ has_char "/" registry →
  is_substring "." registry || is_substring ":" registry = true →
  validate_image_registry (JStr (registry ++ "/" ++ rest)) container_name
  = if in_list registry APPROVED_REGISTRIES then Ok (true, "")
    else Ok (false, container_prefix container_name ++ "Registry '" ++ registry
                      ++ "' not in approved list: " ++ approved_list_text).
Proof.
  intros Hslash Hmark. unfold validate_image_registry.
  change (registry ++ "/" ++ rest) with (registry ++ String "/" rest).
  rewrite (truthy_str _ (app_sep_nonempty _ _ _)). simpl.
  rewrite (split_char_first _ _ _ Hslash).
  destruct (split_char_cons "/" rest) as [h [r ->]]. simpl.
  rewrite Hmark. destruct (in_list registry APPROVED_REGISTRIES); reflexivity.
Qed.

(** C7, as the code has it.  The registry is looked for only in an image
    that holds a '/': when its first segment holds '.' or ':', the rule fails
    exactly when the segment is not an approved registry, and the message
    names the segment and the whole approved list.  An image with a '/' whose
    first segment holds neither marker passes, and so does every non-empty
    image without '/', whatever it holds.  The empty image fails: an image is
    required. *)
Theorem registry_rule (container_name : json) :
  (∀ registry rest : string,
      ¬ has_char "/" registry →
      has_char "." registry ∨ has_char ":" registry →
      (registry ∈ APPROVED_REGISTRIES →
       validate_image_registry (JStr (registry ++ "/" ++ rest)) container_name
       = Ok (true, ""))
      ∧ (registry ∉ APPROVED_REGISTRIES →
         validate_image_registry (JStr (registry ++ "/" ++ rest)) container_name
         = Ok (false, container_prefix container_name ++ "Registry '" ++ registry
                        ++ "' not in approved list: " ++ approved_list_text)))
  ∧ (∀ registry rest : string,
        ¬ has_char "/" registry →
        ¬ has_char "." registry →
        ¬ has_char ":" registry →
        validate_image_registry (JStr (registry ++ "/" ++ rest)) container_name
        = Ok (true, ""))
  ∧ (∀ image : string,
        image ≠ "" →
        ¬ has_char "/" image →
        validate_image_registry (JStr image) container_name = Ok (true, ""))
  ∧ validate_image_registry (JStr "") container_name
    = Ok (false, container_prefix container_name ++ "Image is required").
Proof.
  split; [|split; [|split]]; [| | |reflexivity].
  - intros registry rest Hslash Hmark.
    assert (Hm : is_substring "." registry || is_substring ":" registry = true).
    { destruct Hmark as [Hm|Hm]; apply is_substring_char in Hm; rewrite Hm;
        [reflexivity | apply orb_true_r]. }
    rewrite (registry_with_marker _ _ _ Hslash Hm). split.
    + intros Hin. apply in_list_elem_of in Hin. rewrite Hin. reflexivity.
    + intros Hout. destruct (in_list registry APPROVED_REGISTRIES) eqn:E; [|reflexivity].
      apply in_list_elem_of in E. contradiction.
  - intros registry rest Hslash Hdot Hcolon. unfold validate_image_registry.
    change (registry ++ "/" ++ rest) with (registry ++ String "/" rest).
    rewrite (truthy_str _ (app_sep_nonempty _ _ _)). simpl.
    rewrite (split_char_first _ _ _ Hslash).
    destruct (split_char_cons "/" rest) as [h [r ->]]. simpl.
    rewrite (is_substring_char_false _ _ Hdot), (is_substring_char_false _ _ Hcolon).
    reflexivity.
  - intros image Hne Hslash. unfold validate_image_registry.
    rewrite (truthy_str _ Hne). simpl.
    rewrite (split_char_no_sep _ _ Hslash). reflexivity.
Qed.

(** A field of the empty dict is absent. *)
Lemma lookup_empty_json (k : string) : (∅ : gmap string json) !! k = None.
Proof. apply lookup_empty. Qed.

Ltac split_lookups :=
  repeat match goal with
         | H : context [match ?m !! ?k with _ => _ end] |- _ =>
             let E := fresh "E" in destruct (m !! k) as [[]|] eqn:E; simpl in H
         | |- context [match ?m !! ?k with _ => _ end] =>
             let E := fresh "E" in destruct (m !! k) as [[]|] eqn:E; simpl
         | |- context [default _ (?m !! ?k)] =>
             let E := fresh "E" in destruct (m !! k) as [[]|] eqn:E; simpl
         | H : _ |- _ => rewrite lookup_empty_json in H; simpl in H
         | |- _ => rewrite lookup_empty_json; simpl
         end.

(** C5.  On a container whose security context is typed (three optional
    booleans), the rule passes exactly when runAsNonRoot is true,
    allowPrivilegeEscalation is false and readOnlyRootFilesystem is true, and
    fails otherwise; in particular it fails when allowPrivilegeEscalation is
    not set and when runAsNonRoot is not set. *)
Theorem security_context_rule (c : gmap string json) (container_name : json) :
  typed_security_context c = true →
  (validate_security_context (JObj c) container_name = Ok (true, "") ↔ hardened c)
  ∧ (¬ hardened c →
     ∃ msg, validate_security_context (JObj c) container_name = Ok (false, msg))
  ∧ (nested c "securityContext" "allowPrivilegeEscalation" = None →
     ∃ msg, validate_security_context (JObj c) container_name = Ok (false, msg))
  ∧ (nested c "securityContext" "runAsNonRoot" = None →
     ∃ msg, validate_security_context (JObj c) container_name = Ok (false, msg)).
Proof.
  unfold typed_security_context, hardened, nested, validate_security_context.
  intros Htyped. simpl.
  destruct (c !! "securityContext") as [[]|] eqn:Esc; simpl in *;
    try discriminate; split_lookups; try discriminate;
    repeat match goal with b : bool |- _ => destruct b end; simpl;
    (repeat split; intros; try discriminate; try congruence; eauto;
     try (exfalso; intuition congruence)).
Qed.

Lemma resources_by_truth (c : gmap string json) (container_name : json) :
  resources_shape c = true →
  validate_resources (JObj c) container_name
  = match unusable_quantities c with
    | [] => Ok (true, "")
    | _ :: _ => Ok (false, container_prefix container_name ++ "Missing "
                             ++ join ", " (unusable_quantities c))
    end.
Proof.
  unfold resources_shape, unusable_quantities, quantity, nested, validate_resources,
    require_field.
  intros Hshape. simpl.
  destruct (c !! "resources") as [[| | | | |r]|] eqn:Er; simpl in *; try discriminate.
  - destruct (r !! "limits") as [[| | | | |lim]|] eqn:El;
      destruct (r !! "requests") as [[| | | | |rq]|] eqn:Eq;
      simpl in *; try discriminate;
      rewrite ?lookup_empty_json in *; simpl in *;
      repeat match goal with
             | |- context [?m !! ?k] =>
                 lazymatch m with
                 | r => fail
                 | _ => destruct (m !! k); simpl in *
                 end
             end;
      repeat match goal with
             | |- context [truthy ?v] => destruct (truthy v); simpl
             end;
      reflexivity.
  - rewrite ?lookup_empty_json. reflexivity.
Qed.

(** Each of the rule's words is in the list exactly when its quantity is
    absent or empty. *)
Lemma unusable_label (c : gmap string json) (section k label : string) :
  (section, k, label) ∈ required_quantities →
  label ∈ unusable_quantities c ↔ ¬ usable (quantity c section k).
Proof.
  intros Hin. unfold required_quantities in Hin.
  assert (Hsome : ∀ v : json, truthy v = true → ¬ ¬ usable (Some v)).
  { intros v Hv Hnot. apply Hnot. exists v. split; [reflexivity | exact Hv]. }
  assert (Hempty : ∀ v : json, truthy v = false → ¬ usable (Some v)).
  { intros v Hv (w & [= <-] & Hw). congruence. }
  assert (Hnone : ¬ usable (@None json)).
  { intros (w & Hw & _). discriminate Hw. }
  unfold unusable_quantities. simpl.
  destruct (quantity c "limits" "cpu") as [v1|] eqn:Q1; [destruct (truthy v1) eqn:T1|];
    destruct (quantity c "limits" "memory") as [v2|] eqn:Q2;
    try destruct (truthy v2) eqn:T2;
    destruct (quantity c "requests" "cpu") as [v3|] eqn:Q3;
    try destruct (truthy v3) eqn:T3;
    destruct (quantity c "requests" "memory") as [v4|] eqn:Q4;
    try destruct (truthy v4) eqn:T4;
    simpl; rewrite !elem_of_cons, elem_of_nil in Hin;
    destruct Hin as [Hin|[Hin|[Hin|[Hin|[]]]]]; injection Hin as -> -> ->;
    rewrite ?Q1, ?Q2, ?Q3, ?Q4; rewrite ?elem_of_cons, ?elem_of_nil;
    (split; [intros Hl Hu|intros Hu]);
    try (exfalso; exact (Hnone Hu));
    try (exfalso; eapply Hempty; eauto; fail);
    try (exfalso; eapply Hsome; eauto; fail);
    try (exfalso; intuition discriminate);
    try (intuition eauto; fail).
Qed.

(** C8.  On a container whose [resources], [limits] and [requests] are absent
    or mappings, the rule passes exactly when the four quantities are present
    and not empty; otherwise it fails and its message lists every quantity
    that is absent or empty (an empty string, 0, null), in the order CPU
    limits, memory limits, CPU requests, memory requests.  With only a
    non-empty limits.cpu present the list is memory limits, CPU requests,
    memory requests. *)
Theorem resource_rule (c : gmap string json) (container_name : json) :
  resources_shape c = true →
  (validate_resources (JObj c) container_name = Ok (true, "") ↔ fully_provided c)
  ∧ (¬ fully_provided c →
     unusable_quantities c ≠ []
     ∧ validate_resources (JObj c) container_name
       = Ok (false, container_prefix container_name ++ "Missing "
                      ++ join ", " (unusable_quantities c)))
  ∧ (∀ section k label,
        (section, k, label) ∈ required_quantities →
        label ∈ unusable_quantities c ↔ ¬ usable (quantity c section k))
  ∧ (usable (quantity c "limits" "cpu") →
     quantity c "limits" "memory" = None →
     quantity c "requests" "cpu" = None →
     quantity c "requests" "memory" = None →
     unusable_quantities c = ["memory limits"; "CPU requests"; "memory requests"]).
Proof.
  intros Hshape. rewrite (resources_by_truth _ _ Hshape).
  split; [|split; [|split]].
  - unfold fully_provided, unusable_quantities, usable. simpl.
    destruct (quantity c "limits" "cpu") as [v1|]; [destruct (truthy v1) eqn:T1|];
      destruct (quantity c "limits" "memory") as [v2|]; try destruct (truthy v2) eqn:T2;
      destruct (quantity c "requests" "cpu") as [v3|]; try destruct (truthy v3) eqn:T3;
      destruct (quantity c "requests" "memory") as [v4|]; try destruct (truthy v4) eqn:T4;
      simpl;
      (split;
       [intros Hrun; try discriminate Hrun; repeat split; eauto
       |intros ((w1 & E1 & W1) & (w2 & E2 & W2) & (w3 & E3 & W3) & (w4 & E4 & W4));
        simplify_eq; try congruence; reflexivity]).
  - intros Hnot.
    assert (Hne : unusable_quantities c ≠ []).
    { intros Hnil. apply Hnot. unfold fully_provided, usable.
      unfold unusable_quantities in Hnil. simpl in Hnil.
      destruct (quantity c "limits" "cpu") as [v1|]; [destruct (truthy v1) eqn:T1|];
        destruct (quantity c "limits" "memory") as [v2|]; try destruct (truthy v2) eqn:T2;
        destruct (quantity c "requests" "cpu") as [v3|]; try destruct (truthy v3) eqn:T3;
        destruct (quantity c "requests" "memory") as [v4|]; try destruct (truthy v4) eqn:T4;
        simpl in Hnil; try discriminate Hnil; repeat split; eauto. }
    split; [exact Hne|].
    destruct (unusable_quantities c); [congruence | reflexivity].
  - intros section k label. apply unusable_label.
  - intros (v & Hcpu & Hv) Hmem Hrcpu Hrmem. unfold unusable_quantities. simpl.
    rewrite Hcpu, Hv, Hmem, Hrcpu, Hrmem. reflexivity.
Qed.

End Rules.

(** ** The aggregator of image-validator.py *)

Section Aggregator.
Context `{PyText}.
Import ImageValidator.

#[local] Arguments validate_image_registry : simpl never.
#[local] Arguments validate_image_tag : simpl never.
#[local] Arguments validate_resources : simpl never.
#[local] Arguments validate_security_context : simpl never.

Lemma registry_total (s : string) (container_name : json) :
  ∃ flag msg, validate_image_registry (JStr s) container_name = Ok (flag, msg).
Proof.
  unfold validate_image_registry.
  destruct (negb (truthy (JStr s))); [eauto|]. simpl.
  repeat match goal with |- context [if ?b then _ else _] => destruct b end; eauto.
Qed.

Lemma tag_total (s : string) (container_name : json) :
  ∃ flag msg, validate_image_tag (JStr s) container_name = Ok (flag, msg).
Proof.
  unfold validate_image_tag.
  destruct (negb (truthy (JStr s))); [eauto|]. simpl.
  destruct (is_substring ":" s); simpl;
    repeat match goal with |- context [if ?b then _ else _] => destruct b end; eauto.
Qed.

Lemma rule_total (container : json) (r : rule) :
  well_formed_container container = true →
  ∃ flag msg, run_rule r container = Ok (flag, msg).
Proof.
  destruct container as [| | | | |c]; try discriminate. simpl.
  rewrite !andb_true_iff. intros [[[[Himg Hres] Hlim] Hreq] Hsc].
  destruct r; simpl.
  - destruct (c !! "image") as [[]|]; try discriminate; apply registry_total.
  - destruct (c !! "image") as [[]|]; try discriminate; apply tag_total.
  - unfold validate_resources, require_field, nested in *. simpl.
    destruct (c !! "resources") as [[| | | | |res]|]; try discriminate; simpl in *.
    + destruct (res !! "limits") as [[]|]; try discriminate;
        destruct (res !! "requests") as [[]|]; try discriminate; simpl;
        repeat match goal with |- context [if ?b then _ else _] => destruct b end;
        simpl; eauto.
    + rewrite !lookup_empty_json. simpl. eauto.
  - unfold validate_security_context. simpl.
    destruct (c !! "securityContext") as [[]|]; try discriminate; simpl;
      repeat match goal with |- context [if ?b then _ else _] => destruct b end;
      simpl; eauto.
Qed.

Lemma check_container_spec (container : json) (errs : list string) :
  well_formed_container container = true →
  check_container container errs = Ok (errs ++ failure_messages container)%list.
Proof.
  intros Hwf.
  destruct (rule_total container Registry Hwf) as (b1 & m1 & E1).
  destruct (rule_total container Tag Hwf) as (b2 & m2 & E2).
  destruct (rule_total container Resources Hwf) as (b3 & m3 & E3).
  destruct (rule_total container SecurityContext Hwf) as (b4 & m4 & E4).
  destruct container as [| | | | |c]; try discriminate.
  unfold failure_messages, rule_failure, check_container. simpl in *.
  rewrite E1. simpl. rewrite E2. simpl. rewrite E3. simpl. rewrite E4. simpl.
  destruct b1, b2, b3, b4; simpl; rewrite <- ?app_assoc; simpl;
    rewrite ?app_nil_r; reflexivity.
Qed.

Lemma check_containers_spec (cs : list json) (errs : list string) :
  forallb well_formed_container cs = true →
  check_containers cs errs = Ok (errs ++ flat_map failure_messages cs)%list.
Proof.
  revert errs. induction cs as [|c cs IH]; simpl; intros errs Hwf.
  - rewrite app_nil_r. reflexivity.
  - apply andb_true_iff in Hwf as [Hc Hcs].
    rewrite (check_container_spec _ _ Hc). simpl.
    rewrite (IH _ Hcs), <- app_assoc. reflexivity.
Qed.

Lemma truthy_dict (m : gmap string json) (k : string) (v : json) :
  m !! k = Some v → truthy (JObj m) = true.
Proof.
  intros Hk. simpl. rewrite bool_decide_eq_false_2; [reflexivity|].
  intros ->. rewrite lookup_empty in Hk. discriminate.
Qed.

Lemma eq_str_false (s : string) (v : json) : v ≠ JStr s → eq_str s v = false.
Proof.
  destruct v; simpl; try reflexivity. intros Hne.
  destruct (String.eqb_spec s0 s); [subst; contradiction | reflexivity].
Qed.

(** The aggregator on a well-formed request outside the exempt namespace. *)
Lemma validate_well_formed (req : json) (a : admission_request) :
  as_request req = Some a →
  request_namespace a ≠ JStr exempt_namespace →
  forallb well_formed_container (all_containers a) = true →
  validate (Body req)
  = Ok (verdict (request_uid a)
          (flat_map failure_messages (all_containers a))).
Proof.
  unfold as_request. intros Hreq Hns Hwf.
  destruct req as [| | | | |r]; try discriminate.
  destruct (r !! "request") as [[| | | | |rq]|] eqn:Er; try discriminate.
  destruct (rq !! "uid") as [u|] eqn:Eu; try discriminate.
  destruct (rq !! "object") as [[| | | | |ob]|] eqn:Eo; try discriminate.
  destruct (dict_or_empty (ob !! "metadata")) as [meta|] eqn:Em; try discriminate.
  destruct (ob !! "spec") as [[| | | | |sp]|] eqn:Es; try discriminate.
  destruct (list_or_empty (sp !! "containers")) as [cs|] eqn:Ec; try discriminate.
  destruct (list_or_empty (sp !! "initContainers")) as [ics|] eqn:Ei; try discriminate.
  injection Hreq as <-. unfold all_containers in *. simpl in *.
  unfold validate, try_except, validate_body.
  rewrite (truthy_dict _ _ _ Er). simpl.
  rewrite Er. rewrite bool_decide_eq_true_2 by eauto. simpl.
  rewrite Eu. simpl. rewrite Eo. simpl.
  assert (Hmeta : default (JObj ∅) (ob !! "metadata") = JObj meta).
  { destruct (ob !! "metadata") as [[]|]; simpl in *; congruence. }
  rewrite Hmeta. simpl. rewrite (eq_str_false _ _ Hns). simpl.
  rewrite Es. simpl.
  assert (Hcs : default (JArr []) (sp !! "containers") = JArr cs).
  { destruct (sp !! "containers") as [[]|]; simpl in *; congruence. }
  assert (Hics : default (JArr []) (sp !! "initContainers") = JArr ics).
  { destruct (sp !! "initContainers") as [[]|]; simpl in *; congruence. }
  rewrite Hcs, Hics. simpl.
  rewrite (check_containers_spec _ _ Hwf). simpl.
  destruct (flat_map failure_messages (cs ++ ics)); reflexivity.
Qed.

Lemma rule_failure_elem (r : rule) (container : json) (msg : string) :
  msg ∈ rule_failure r container ↔ run_rule r container = Ok (failure_flag r, msg).
Proof.
  unfold rule_failure.
  destruct (run_rule r container) as [[flag m]|e].
  - destruct (Bool.eqb flag (failure_flag r)) eqn:E.
    + apply Bool.eqb_prop in E. subst flag. rewrite list_elem_of_singleton.
      split; [intros ->; reflexivity | congruence].
    + split; [intros Hin; inversion Hin|]. intros Heq. injection Heq as -> _.
      rewrite Bool.eqb_reflx in E. discriminate.
  - split; [intros Hin; inversion Hin | discriminate].
Qed.

Lemma failure_messages_elem (container : json) (msg : string) :
  msg ∈ failure_messages container
  ↔ ∃ r, run_rule r container = Ok (failure_flag r, msg).
Proof.
  unfold failure_messages, rules. simpl. rewrite app_nil_r.
  rewrite !elem_of_app, !rule_failure_elem. split.
  - intros [?|[?|[?|?]]]; eauto.
  - intros [[] ?]; auto.
Qed.

Lemma failures_elem (cs : list json) (msg : string) :
  msg ∈ flat_map failure_messages cs
  ↔ ∃ c r, c ∈ cs ∧ run_rule r c = Ok (failure_flag r, msg).
Proof.
  rewrite list_elem_of_In, in_flat_map. split.
  - intros (c & Hc & Hmsg). apply list_elem_of_In in Hc, Hmsg.
    apply failure_messages_elem in Hmsg as [r Hr]. eauto.
  - intros (c & r & Hc & Hr). exists c. rewrite <- !list_elem_of_In.
    split; [assumption|]. apply failure_messages_elem. eauto.
Qed.

Lemma failures_nonempty (cs : list json) :
  flat_map failure_messages cs ≠ [] ↔ ∃ c r, c ∈ cs ∧ rule_fails r c.
Proof.
  split.
  - destruct (flat_map failure_messages cs) as [|msg l] eqn:E; [congruence|].
    intros _. assert (Hin : msg ∈ flat_map failure_messages cs) by (rewrite E; left).
    apply failures_elem in Hin as (c & r & Hc & Hr). exists c, r.
    split; [assumption|]. exists msg. exact Hr.
  - intros (c & r & Hc & msg & Hr) Hnil.
    assert (Hin : msg ∈ flat_map failure_messages cs) by (apply failures_elem; eauto).
    rewrite Hnil in Hin. inversion Hin.
Qed.

(** C1.  For a well-formed request outside the exempt namespace the
    aggregator answers a review, and that review denies exactly when some
    rule fails on some container, regular or init; with no failing rule it
    allows, with the message that all validations passed. *)
Theorem denied_iff_some_rule_fails (req : json) (a : admission_request) :
  as_request req = Some a →
  request_namespace a ≠ JStr exempt_namespace →
  forallb well_formed_container (all_containers a) = true →
  ∃ r, validate (Body req) = Ok r
       ∧ uid (response r) = request_uid a
       ∧ (allowed (response r) = false
          ↔ ∃ c rl, c ∈ all_containers a ∧ rule_fails rl c)
       ∧ ((∀ c rl, c ∈ all_containers a → ¬ rule_fails rl c) →
          r = review (request_uid a) true "All validations passed").
Proof.
  intros Hreq Hns Hwf. rewrite (validate_well_formed _ _ Hreq Hns Hwf).
  eexists. split; [reflexivity|].
  pose proof (failures_nonempty (all_containers a)) as Hne.
  destruct (flat_map failure_messages (all_containers a)) as [|m l]; simpl.
  - split; [reflexivity|]. split; [|reflexivity]. split; [discriminate|].
    intros Hex. apply Hne in Hex. congruence.
  - split; [reflexivity|]. split.
    + split; [|reflexivity]. intros _. apply Hne. discriminate.
    + intros Hnone. exfalso.
      destruct (proj1 Hne) as (c & rl & Hc & Hf); [discriminate|].
      exact (Hnone c rl Hc Hf).
Qed.

(** Every failure message starts with the name of its container. *)
Lemma failure_has_prefix (r : rule) (container : json) (msg : string) :
  run_rule r container = Ok (failure_flag r, msg) →
  ∃ text, msg = container_prefix (name_of container) ++ text.
Proof.
  destruct r; simpl;
    unfold validate_image_registry, validate_image_tag, validate_resources,
      validate_security_context, require_field, mbind, result_bind;
    intros Hrun; repeat case_match; simplify_eq; eauto.
Qed.

(** C3, as the code has it.  For a well-formed request outside the exempt
    namespace, the aggregator visits the regular containers and then the init
    containers, runs the four rules on each one, and keeps every failure:
    the list of failures is, container by container in that order, the
    messages of the rules that fail (registry, tag, resources, security
    context).  A request with failures is denied with these messages joined
    by " | ", each message starting with "Container '<name>': ", and every
    rule that fails on a container has its message in the list. *)
Theorem failures_joined_in_encounter_order (req : json) (a : admission_request) :
  as_request req = Some a →
  request_namespace a ≠ JStr exempt_namespace →
  forallb well_formed_container (all_containers a) = true →
  let failures :=
    flat_map (λ c, flat_map (λ rl, rule_failure rl c)
                     [Registry; Tag; Resources; SecurityContext])
      (request_containers a ++ request_init_containers a)%list in
  (failures ≠ [] →
   validate (Body req) = Ok (review (request_uid a) false (join " | " failures)))
  ∧ (failures = [] →
     validate (Body req) = Ok (review (request_uid a) true "All validations passed"))
  ∧ (∀ c rl msg,
        c ∈ (request_containers a ++ request_init_containers a)%list →
        run_rule rl c = Ok (failure_flag rl, msg) →
        msg ∈ failures ∧ ∃ text, msg = container_prefix (name_of c) ++ text)
  ∧ (∀ msg, msg ∈ failures →
        ∃ c rl, c ∈ (request_containers a ++ request_init_containers a)%list
                ∧ run_rule rl c = Ok (failure_flag rl, msg)).
Proof.
  intros Hreq Hns Hwf failures.
  pose proof (validate_well_formed _ _ Hreq Hns Hwf) as Hrun.
  change (flat_map failure_messages (all_containers a)) with failures in Hrun.
  repeat split.
  - intros Hne. rewrite Hrun. destruct failures; [congruence | reflexivity].
  - intros Hnil. rewrite Hrun, Hnil. reflexivity.
  - apply (failures_elem (all_containers a)). eauto.
  - eapply failure_has_prefix; eassumption.
  - intros msg Hin. apply (failures_elem (all_containers a)) in Hin. exact Hin.
Qed.

End Aggregator.

(** ** The handlers of both webhooks *)

Section Handlers.
Context `{PyText}.

Lemma image_validator_skips (r rq ob meta : gmap string json) (u : json) :
  r !! "request" = Some (JObj rq) →
  rq !! "uid" = Some u →
  rq !! "object" = Some (JObj ob) →
  ob !! "metadata" = Some (JObj meta) →
  meta !! "namespace" = Some (JStr ImageValidator.exempt_namespace) →
  ImageValidator.validate (Body (JObj r))
  = Ok (review u true "Skipped validation in image-validator-demo namespace").
Proof.
  intros Er Eu Eo Em En.
  unfold ImageValidator.validate, try_except, ImageValidator.validate_body.
  rewrite (truthy_dict _ _ _ Er). simpl.
  rewrite Er, bool_decide_eq_true_2 by eauto. simpl.
  rewrite Eu. simpl. rewrite Eo. simpl. rewrite Em. simpl. rewrite En. reflexivity.
Qed.

Lemma pod_validator_skips (r rq ob meta : gmap string json) (u : json) :
  r !! "request" = Some (JObj rq) →
  rq !! "uid" = Some u →
  rq !! "object" = Some (JObj ob) →
  ob !! "metadata" = Some (JObj meta) →
  meta !! "namespace" = Some (JStr PodValidator.exempt_namespace) →
  PodValidator.validate (Body (JObj r))
  = Ok (review u true "Skipped validation in webhook-demo namespace").
Proof.
  intros Er Eu Eo Em En.
  unfold PodValidator.validate, try_except, PodValidator.validate_body.
  rewrite (truthy_dict _ _ _ Er). simpl.
  rewrite Er, bool_decide_eq_true_2 by eauto. simpl.
  rewrite Eu. simpl. rewrite Eo. simpl. rewrite Em. simpl. rewrite En. reflexivity.
Qed.

(** C2.  A request whose namespace is the exempt namespace of a webhook is
    allowed by that webhook with the fixed skip message and the request's
    uid.  Nothing is asked of the pod's spec: the answer is the same with
    any value in its place, also one on which the rules would raise, so no
    rule is evaluated. *)
Theorem exempt_namespace_is_allowed (r rq ob meta : gmap string json) (u : json) :
  r !! "request" = Some (JObj rq) →
  rq !! "uid" = Some u →
  rq !! "object" = Some (JObj ob) →
  ob !! "metadata" = Some (JObj meta) →
  (meta !! "namespace" = Some (JStr "image-validator-demo") →
   ImageValidator.validate (Body (JObj r))
   = Ok (review u true "Skipped validation in image-validator-demo namespace")
   ∧ ∀ sp, ImageValidator.validate (Body (with_spec r rq ob sp))
           = Ok (review u true "Skipped validation in image-validator-demo namespace"))
  ∧ (meta !! "namespace" = Some (JStr "webhook-demo") →
     PodValidator.validate (Body (JObj r))
     = Ok (review u true "Skipped validation in webhook-demo namespace")
     ∧ ∀ sp, PodValidator.validate (Body (with_spec r rq ob sp))
             = Ok (review u true "Skipped validation in webhook-demo namespace")).
Proof.
  intros Er Eu Eo Em.
  assert (Hspec : ∀ sp, (<["spec" := sp]> ob) !! "metadata" = Some (JObj meta)).
  { intros sp. rewrite lookup_insert_ne by discriminate. exact Em. }
  assert (Huid : ∀ x, (<["object" := x]> rq) !! "uid" = Some u).
  { intros x. rewrite lookup_insert_ne by discriminate. exact Eu. }
  split; intros En; (split; [|intros sp; unfold with_spec]).
  - eapply image_validator_skips; eassumption.
  - eapply image_validator_skips; [apply lookup_insert_eq | apply Huid
      | apply lookup_insert_eq | apply Hspec | exact En].
  - eapply pod_validator_skips; eassumption.
  - eapply pod_validator_skips; [apply lookup_insert_eq | apply Huid
      | apply lookup_insert_eq | apply Hspec | exact En].
Qed.

(** A body that is falsy, or a dict without the key "request", is answered
    with the "Invalid request" denial and the empty uid. *)
Lemma invalid_request_is_denied (req : json) :
  truthy req = false ∨ (∃ r, req = JObj r ∧ r !! "request" = None) →
  ImageValidator.validate (Body req) = Ok (review (JStr "") false "Invalid request")
  ∧ PodValidator.validate (Body req) = Ok (review (JStr "") false "Invalid request").
Proof.
  unfold ImageValidator.validate, PodValidator.validate, try_except,
    ImageValidator.validate_body, PodValidator.validate_body.
  intros [Hfalsy|(r & -> & Hr)].
  - rewrite Hfalsy. split; reflexivity.
  - destruct (truthy (JObj r)); simpl; [|split; reflexivity].
    rewrite Hr, bool_decide_eq_false_2 by (intros [? ?]; discriminate).
    split; reflexivity.
Qed.

(** When the body is a dict whose "request" is a dict, an exception raised
    in the [try] block becomes a denial that carries the request's uid, or
    the empty string when there is none. *)
Lemma exception_is_denied (body : json → result admission_review)
      (r rq : gmap string json) (e : exn) :
  r !! "request" = Some (JObj rq) →
  body (JObj r) = Raise e →
  try_except (Body (JObj r)) body
  = Ok (review (default (JStr "") (rq !! "uid")) false ("Validation error: " ++ exn_str e)).
Proof.
  intros Er Hraise. unfold try_except, on_exception. rewrite Hraise. simpl.
  rewrite Er. reflexivity.
Qed.

(** C9 at the body [{"request": null}]: subscripting [None] raises inside
    the [try] block, and the [except] clause raises in turn when it calls
    [.get] on [None] to recover the uid.  No review is returned by either
    webhook. *)
Theorem null_request_escapes_handler :
  ImageValidator.validate (Body (dict [("request", JNull)]))
  = Raise (AttributeError "NoneType" "get")
  ∧ PodValidator.validate (Body (dict [("request", JNull)]))
    = Raise (AttributeError "NoneType" "get").
Proof. split; reflexivity. Qed.

End Handlers.

(** ** The reconciliation loop of crontab-controller.py *)

Section Reconciliation.
Context `{PyText} `{CronTabController.ClusterAPI}.
Import CronTabController.

(** C4.  On an event whose object carries metadata.name, spec.cronSpec and
    spec.message (strings), the handler issues exactly one create call when
    the type is ADDED: in namespace "default", for a CronJob named
    "<name>-job" with the resource's schedule, restart policy OnFailure and
    one container whose arguments are /bin/sh, -c, "echo <message>".  When
    the type is MODIFIED or DELETED the handler leaves the world as it was:
    no call is issued. *)
Theorem added_event_creates_one_cronjob
    (ev : event) (obj md sp : gmap string json) (name cron msg : string) (w : world) :
  object ev = JObj obj →
  obj !! "metadata" = Some (JObj md) →
  md !! "name" = Some (JStr name) →
  obj !! "spec" = Some (JObj sp) →
  sp !! "cronSpec" = Some (JStr cron) →
  sp !! "message" = Some (JStr msg) →
  (type ev = "ADDED" →
   ∃ w' job,
     handle_event ev w = Ok w'
     ∧ watch_loop [ev] w = (w', None)
     ∧ calls w' = (calls w ++ [ {| call_namespace := "default"; call_body := job |} ])%list
     ∧ meta_name (metadata job) = name ++ "-job"
     ∧ schedule (spec job) = JStr cron
     ∧ restart_policy (pod_of job) = "OnFailure"
     ∧ containers (pod_of job)
       = [ {| container_name := "echo";
              container_image := "busybox";
              container_args := ["/bin/sh"; "-c"; "echo " ++ msg] |} ])
  ∧ (type ev = "MODIFIED" ∨ type ev = "DELETED" →
     handle_event ev w = Ok w ∧ watch_loop [ev] w = (w, None)).
Proof.
  intros Hobj Emd Ename Esp Ecron Emsg.
  unfold watch_loop, handle_event. rewrite Hobj. simpl.
  rewrite Emd. simpl. rewrite Ename. simpl. rewrite Esp. simpl.
  rewrite Ecron. simpl. rewrite Emsg. simpl. split.
  - intros ->. simpl. unfold create_cronjob.
    destruct (create_namespaced_cron_job _ _); eexists _, _;
      (split; [reflexivity|]); (split; [reflexivity|]); simpl; repeat split; reflexivity.
  - intros [-> | ->]; simpl; split; reflexivity.
Qed.

(** The loop on a stream cut in two: the second part is read only when the
    first part ended without an exception. *)
Lemma watch_loop_app (before after : list event) (w : world) :
  watch_loop (before ++ after) w
  = match watch_loop before w with
    | (w', None) => watch_loop after w'
    | (w', Some e) => (w', Some e)
    end.
Proof.
  revert w. induction before as [|ev before IH]; intros w; simpl; [reflexivity|].
  destruct (handle_event ev w) as [w'|e]; [apply IH | reflexivity].
Qed.

(** C10.  The handler subscripts metadata.name, spec.cronSpec and
    spec.message before it looks at the event type.  On an event of any type
    whose object lacks one of them it raises KeyError for the first key that
    is absent; nothing catches it, so the loop ends there, with the world as
    the events before left it, and the events that follow are not read. *)
Theorem event_without_fields_stops_the_loop
    (ev : event) (obj : gmap string json) (before rest : list event) (w w1 : world) :
  object ev = JObj obj →
  optional is_dict (obj !! "metadata") = true →
  optional is_dict (obj !! "spec") = true →
  nested obj "metadata" "name" = None
  ∨ nested obj "spec" "cronSpec" = None
  ∨ nested obj "spec" "message" = None →
  watch_loop before w = (w1, None) →
  ∃ k, k ∈ ["metadata"; "name"; "spec"; "cronSpec"; "message"]
       ∧ handle_event ev w1 = Raise (KeyError k)
       ∧ watch_loop (before ++ ev :: rest) w = (w1, Some (KeyError k)).
Proof.
  intros Hobj Hmd Hsp Hlack Hbefore. unfold nested in Hlack.
  rewrite watch_loop_app, Hbefore.
  unfold watch_loop at 1. unfold handle_event. rewrite Hobj. simpl.
  destruct (obj !! "metadata") as [[| | | | |md]|]; try discriminate; simpl;
    [|exists "metadata"; split; [repeat constructor | split; reflexivity]].
  destruct (md !! "name") as [name|]; simpl;
    [|exists "name"; split; [repeat constructor | split; reflexivity]].
  destruct (obj !! "spec") as [[| | | | |sp]|]; try discriminate; simpl;
    [|exists "spec"; split; [repeat constructor | split; reflexivity]].
  destruct (sp !! "cronSpec") as [cron|]; simpl;
    [|exists "cronSpec"; split; [repeat constructor | split; reflexivity]].
  destruct (sp !! "message") as [msg|]; simpl;
    [|exists "message"; split; [repeat constructor | split; reflexivity]].
  exfalso. destruct Hlack as [?|[?|?]]; discriminate.
Qed.

End Reconciliation.

(** ** The theorems at concrete inputs *)

Section Examples.

#[local] Existing Instance sample_text.
#[local] Existing Instance accepting_cluster.

Ltac no_such_char := unfold has_char; compute_done.

Lemma untagged_image_is_blocked_witness :
  "myapp" ≠ "" ∧ ¬ has_char ":" "myapp"
  ∧ ImageValidator.validate_image_tag (JStr "myapp") (JStr "web")
    = Ok (true, "Container 'web': Tag 'latest' is blocked. Use specific version tags.").
Proof.
  assert (H1 : "myapp" ≠ "") by discriminate.
  assert (H2 : ¬ has_char ":" "myapp") by no_such_char.
  split; [exact H1|]. split; [exact H2|].
  exact (proj2 (untagged_image_is_blocked "myapp" (JStr "web") H1 H2)).
Defined.

Lemma registry_rule_witness :
  ImageValidator.validate_image_registry (JStr "docker.io/library/nginx:1.21") (JStr "web")
  = Ok (true, "")
  ∧ ImageValidator.validate_image_registry (JStr "evil.io/malware:1.0") (JStr "web")
    = Ok (false, "Container 'web': Registry 'evil.io' not in approved list: "
                   ++ "['docker.io', 'gcr.io', 'k8s.gcr.io', 'quay.io', 'registry.k8s.io', 'ghcr.io']")
  ∧ ImageValidator.validate_image_registry (JStr "library/nginx:1.21") (JStr "web")
    = Ok (true, "")
  ∧ ImageValidator.validate_image_registry (JStr "nginx:1.21") (JStr "web")
    = Ok (true, "").
Proof.
  destruct (registry_rule (JStr "web")) as (Hmarker & Hplain & Hnoslash & _).
  assert (Hdocker : ¬ has_char "/" "docker.io") by no_such_char.
  assert (Hevil : ¬ has_char "/" "evil.io") by no_such_char.
  assert (Hdot1 : has_char "." "docker.io" ∨ has_char ":" "docker.io")
    by (left; no_such_char).
  assert (Hdot2 : has_char "." "evil.io" ∨ has_char ":" "evil.io")
    by (left; no_such_char).
  assert (Hin : "docker.io" ∈ ImageValidator.APPROVED_REGISTRIES) by compute_done.
  assert (Hout : "evil.io" ∉ ImageValidator.APPROVED_REGISTRIES) by compute_done.
  split; [exact (proj1 (Hmarker "docker.io" "library/nginx:1.21" Hdocker Hdot1) Hin)|].
  split; [exact (proj2 (Hmarker "evil.io" "malware:1.0" Hevil Hdot2) Hout)|].
  split.
  - apply (Hplain "library" "nginx:1.21"); no_such_char.
  - apply (Hnoslash "nginx:1.21"); [discriminate | no_such_char].
Defined.

(** C7 as it is worded fails on the code at the image "nginx:1.21": its first
    '/'-separated segment is the whole string, which holds ':' (and '.') and
    is not an approved registry, yet the rule passes, because the code looks
    for a registry only when the image holds a '/'.  It fails again at the
    empty image, which has no registry segment and does not pass. *)
Lemma slashless_image_passes_registry_rule :
  (let segment := hd "" (split_char "/" "nginx:1.21") in
   (has_char "." segment ∨ has_char ":" segment)
   ∧ (segment ∉ ImageValidator.APPROVED_REGISTRIES)
   ∧ ImageValidator.validate_image_registry (JStr "nginx:1.21") (JStr "web")
     = Ok (true, ""))
  ∧ (let segment := hd "" (split_char "/" "") in
     ¬ has_char "." segment ∧ ¬ has_char ":" segment
     ∧ ImageValidator.validate_image_registry (JStr "") (JStr "web")
       = Ok (false, "Container 'web': Image is required")).
Proof.
  split; simpl.
  - split; [right; no_such_char|]. split; [compute_done | reflexivity].
  - split; [no_such_char|]. split; [no_such_char | reflexivity].
Qed.

Lemma security_context_rule_witness :
  typed_security_context escalation_unset = true
  ∧ nested escalation_unset "securityContext" "allowPrivilegeEscalation" = None
  ∧ ∃ msg, ImageValidator.validate_security_context (JObj escalation_unset) (JStr "web")
           = Ok (false, msg).
Proof.
  assert (Htyped : typed_security_context escalation_unset = true) by reflexivity.
  assert (Hunset : nested escalation_unset "securityContext" "allowPrivilegeEscalation"
                   = None) by reflexivity.
  split; [exact Htyped|]. split; [exact Hunset|].
  exact (proj1 (proj2 (proj2
           (security_context_rule escalation_unset (JStr "web") Htyped))) Hunset).
Defined.

Lemma resource_rule_witness :
  resources_shape only_cpu_limit = true
  ∧ unusable_quantities only_cpu_limit
    = ["memory limits"; "CPU requests"; "memory requests"]
  ∧ ImageValidator.validate_resources (JObj only_cpu_limit) (JStr "web")
    = Ok (false, "Container 'web': Missing memory limits, CPU requests, memory requests").
Proof.
  assert (Hshape : resources_shape only_cpu_limit = true) by reflexivity.
  destruct (resource_rule only_cpu_limit (JStr "web") Hshape) as (_ & Hfail & _ & Hthree).
  assert (Hlist : unusable_quantities only_cpu_limit
                  = ["memory limits"; "CPU requests"; "memory requests"]).
  { apply Hthree; [|reflexivity|reflexivity|reflexivity].
    exists (JStr "500m"). split; reflexivity. }
  split; [exact Hshape|]. split; [exact Hlist|].
  change "Container 'web': Missing memory limits, CPU requests, memory requests"
    with (ImageValidator.container_prefix (JStr "web") ++ "Missing "
            ++ join ", " ["memory limits"; "CPU requests"; "memory requests"]).
  rewrite <- Hlist. apply Hfail.
  intros (_ & (v & Hv & _) & _). discriminate Hv.
Defined.

(** C8 as it is worded fails on the code at the container [empty_cpu_limit]:
    none of limits.cpu, limits.memory, requests.cpu, requests.memory is
    absent, yet the rule fails, because the code tests each quantity for
    truth, not for presence, and limits.cpu is the empty
    string.  The message names CPU limits as missing. *)
Lemma empty_quantity_fails_resource_rule :
  resources_shape empty_cpu_limit = true
  ∧ quantity empty_cpu_limit "limits" "cpu" = Some (JStr "")
  ∧ fully_specified empty_cpu_limit
  ∧ missing_quantities empty_cpu_limit = []
  ∧ ImageValidator.validate_resources (JObj empty_cpu_limit) (JStr "web")
    = Ok (false, "Container 'web': Missing CPU limits").
Proof.
  split; [reflexivity|]. split; [reflexivity|].
  split; [repeat split; eexists; reflexivity|].
  split; reflexivity.
Qed.

Lemma denied_iff_some_rule_fails_witness :
  as_request two_failures = Some two_failures_view
  ∧ request_namespace two_failures_view ≠ JStr ImageValidator.exempt_namespace
  ∧ forallb well_formed_container (all_containers two_failures_view) = true
  ∧ ∃ r, ImageValidator.validate (Body two_failures) = Ok r
         ∧ uid (response r) = JStr "u1"
         ∧ (allowed (response r) = false
            ↔ ∃ c rl, c ∈ all_containers two_failures_view ∧ rule_fails rl c)
         ∧ ((∀ c rl, c ∈ all_containers two_failures_view → ¬ rule_fails rl c) →
            r = review (JStr "u1") true "All validations passed").
Proof.
  assert (H1 : as_request two_failures = Some two_failures_view) by reflexivity.
  assert (H2 : request_namespace two_failures_view
               ≠ JStr ImageValidator.exempt_namespace) by discriminate.
  assert (H3 : forallb well_formed_container (all_containers two_failures_view) = true)
    by reflexivity.
  split; [exact H1|]. split; [exact H2|]. split; [exact H3|].
  exact (denied_iff_some_rule_fails two_failures two_failures_view H1 H2 H3).
Defined.

Lemma failures_joined_in_encounter_order_witness :
  as_request two_failures = Some two_failures_view
  ∧ request_namespace two_failures_view ≠ JStr ImageValidator.exempt_namespace
  ∧ forallb well_formed_container (all_containers two_failures_view) = true
  ∧ ImageValidator.validate (Body two_failures)
    = Ok (review (JStr "u1") false two_failures_message).
Proof.
  assert (H1 : as_request two_failures = Some two_failures_view) by reflexivity.
  assert (H2 : request_namespace two_failures_view
               ≠ JStr ImageValidator.exempt_namespace) by discriminate.
  assert (H3 : forallb well_formed_container (all_containers two_failures_view) = true)
    by reflexivity.
  split; [exact H1|]. split; [exact H2|]. split; [exact H3|].
  apply (proj1 (failures_joined_in_encounter_order
                  two_failures two_failures_view H1 H2 H3)).
  discriminate.
Defined.

(** C3 as it is worded fails on the code at the request [two_failures]: the
    deny message lists the failure of the regular container 'app' before the
    failure of the init container 'setup', where the claim's order (init
    containers first) gives the opposite message. *)
Lemma init_containers_are_visited_last :
  as_request two_failures = Some two_failures_view
  ∧ request_namespace two_failures_view ≠ JStr ImageValidator.exempt_namespace
  ∧ forallb well_formed_container (all_containers two_failures_view) = true
  ∧ ImageValidator.validate (Body two_failures)
    = Ok (review (JStr "u1") false two_failures_message)
  ∧ ImageValidator.validate (Body two_failures)
    ≠ Ok (review (JStr "u1") false
            (join " | " (flat_map failure_messages
                           (request_init_containers two_failures_view
                              ++ request_containers two_failures_view)%list))).
Proof.
  split; [reflexivity|]. split; [discriminate|]. split; [reflexivity|].
  split; [reflexivity|]. vm_compute. discriminate.
Qed.

Lemma exempt_namespace_is_allowed_witness :
  ImageValidator.validate (Body (JObj (exempt_envelope "image-validator-demo")))
  = Ok (review (JStr "u2") true "Skipped validation in image-validator-demo namespace")
  ∧ PodValidator.validate (Body (JObj (exempt_envelope "webhook-demo")))
    = Ok (review (JStr "u2") true "Skipped validation in webhook-demo namespace").
Proof.
  split.
  - refine (proj1 (proj1 (exempt_namespace_is_allowed
                            (exempt_envelope "image-validator-demo")
                            (exempt_request "image-validator-demo")
                            (exempt_object "image-validator-demo")
                            (exempt_metadata "image-validator-demo")
                            (JStr "u2") _ _ _ _) _)); reflexivity.
  - refine (proj1 (proj2 (exempt_namespace_is_allowed
                            (exempt_envelope "webhook-demo")
                            (exempt_request "webhook-demo")
                            (exempt_object "webhook-demo")
                            (exempt_metadata "webhook-demo")
                            (JStr "u2") _ _ _ _) _)); reflexivity.
Defined.

Lemma added_event_creates_one_cronjob_witness :
  (∃ w' job,
      CronTabController.handle_event (demo_event "ADDED") quiet_world = Ok w'
      ∧ CronTabController.watch_loop [demo_event "ADDED"] quiet_world = (w', None)
      ∧ CronTabController.calls w'
        = [ {| CronTabController.call_namespace := "default";
               CronTabController.call_body := job |} ]
      ∧ CronTabController.meta_name (CronTabController.metadata job) = "demo-job"
      ∧ CronTabController.schedule (CronTabController.spec job) = JStr "*/1 * * * *"
      ∧ CronTabController.restart_policy (pod_of job) = "OnFailure"
      ∧ CronTabController.containers (pod_of job)
        = [ {| CronTabController.container_name := "echo";
               CronTabController.container_image := "busybox";
               CronTabController.container_args := ["/bin/sh"; "-c"; "echo hi"] |} ])
  ∧ CronTabController.handle_event (demo_event "MODIFIED") quiet_world = Ok quiet_world
  ∧ CronTabController.handle_event (demo_event "DELETED") quiet_world = Ok quiet_world.
Proof.
  split; [|split].
  - refine (proj1 (added_event_creates_one_cronjob (demo_event "ADDED") demo_crontab
                     demo_metadata demo_spec "demo" "*/1 * * * *" "hi" quiet_world
                     _ _ _ _ _ _) _); reflexivity.
  - refine (proj1 (proj2 (added_event_creates_one_cronjob (demo_event "MODIFIED")
                            demo_crontab demo_metadata demo_spec "demo" "*/1 * * * *" "hi"
                            quiet_world _ _ _ _ _ _) _));
      try reflexivity. left. reflexivity.
  - refine (proj1 (proj2 (added_event_creates_one_cronjob (demo_event "DELETED")
                            demo_crontab demo_metadata demo_spec "demo" "*/1 * * * *" "hi"
                            quiet_world _ _ _ _ _ _) _));
      try reflexivity. right. reflexivity.
Defined.

Lemma event_without_fields_stops_the_loop_witness :
  nested silent_crontab "spec" "message" = None
  ∧ ∃ w1 k,
      CronTabController.watch_loop [demo_event "ADDED"] quiet_world = (w1, None)
      ∧ k ∈ ["metadata"; "name"; "spec"; "cronSpec"; "message"]
      ∧ CronTabController.handle_event silent_event w1 = Raise (KeyError k)
      ∧ CronTabController.watch_loop
          [demo_event "ADDED"; silent_event; demo_event "ADDED"] quiet_world
        = (w1, Some (KeyError k)).
Proof.
  assert (Hlack : nested silent_crontab "spec" "message" = None) by reflexivity.
  split; [exact Hlack|].
  eexists.
  assert (Hbefore : CronTabController.watch_loop [demo_event "ADDED"] quiet_world
                    = (_, None)) by reflexivity.
  destruct (event_without_fields_stops_the_loop silent_event silent_crontab
              [demo_event "ADDED"] [demo_event "ADDED"] quiet_world _
              eq_refl eq_refl eq_refl (or_intror (or_intror Hlack)) Hbefore)
    as (k & Hk & Hraise & Hloop).
  exists k. split; [exact Hbefore|]. split; [exact Hk|]. split; [exact Hraise|].
  exact Hloop.
Defined.

End Examples.

(** ** Beyond the claims: what the two handlers answer *)

Section HandlerAnswers.
Context `{PyText}.

Ltac run_body H :=
  unfold mbind, result_bind in H; repeat case_match; simplify_eq.

Lemma image_body_echoes_uid (r rq : gmap string json) (rev : admission_review) :
  r !! "request" = Some (JObj rq) →
  ImageValidator.validate_body (JObj r) = Ok rev →
  rq !! "uid" = Some (uid (response rev)).
Proof.
  intros Er. unfold ImageValidator.validate_body.
  rewrite (truthy_dict _ _ _ Er). simpl.
  rewrite Er, bool_decide_eq_true_2 by eauto. simpl.
  destruct (rq !! "uid") as [u|]; simpl; [|discriminate].
  intros Hrun. run_body Hrun; reflexivity.
Qed.

Lemma pod_body_echoes_uid (r rq : gmap string json) (rev : admission_review) :
  r !! "request" = Some (JObj rq) →
  PodValidator.validate_body (JObj r) = Ok rev →
  rq !! "uid" = Some (uid (response rev)).
Proof.
  intros Er. unfold PodValidator.validate_body.
  rewrite (truthy_dict _ _ _ Er). simpl.
  rewrite Er, bool_decide_eq_true_2 by eauto. simpl.
  destruct (rq !! "uid") as [u|]; simpl; [|discriminate].
  intros Hrun. run_body Hrun; reflexivity.
Qed.

Lemma image_body_without_uid (r rq : gmap string json) :
  r !! "request" = Some (JObj rq) →
  rq !! "uid" = None →
  ImageValidator.validate_body (JObj r) = Raise (KeyError "uid").
Proof.
  intros Er Eu. unfold ImageValidator.validate_body.
  rewrite (truthy_dict _ _ _ Er). simpl.
  rewrite Er, bool_decide_eq_true_2 by eauto. simpl. rewrite Eu. reflexivity.
Qed.

Lemma pod_body_without_uid (r rq : gmap string json) :
  r !! "request" = Some (JObj rq) →
  rq !! "uid" = None →
  PodValidator.validate_body (JObj r) = Raise (KeyError "uid").
Proof.
  intros Er Eu. unfold PodValidator.validate_body.
  rewrite (truthy_dict _ _ _ Er). simpl.
  rewrite Er, bool_decide_eq_true_2 by eauto. simpl. rewrite Eu. reflexivity.
Qed.

(** What [try_except] answers for a mapping whose "request" is a mapping,
    given that the body echoes the uid when it returns. *)
Lemma answered_with_uid (body : json → result admission_review)
      (r rq : gmap string json) :
  r !! "request" = Some (JObj rq) →
  (∀ rev, body (JObj r) = Ok rev → rq !! "uid" = Some (uid (response rev))) →
  ∃ rev, try_except (Body (JObj r)) body = Ok rev
         ∧ uid (response rev) = default (JStr "") (rq !! "uid").
Proof.
  intros Er Hecho. destruct (body (JObj r)) as [rev|e] eqn:Hbody.
  - exists rev. split; [unfold try_except; rewrite Hbody; reflexivity|].
    rewrite (Hecho rev eq_refl). reflexivity.
  - rewrite (exception_is_denied body r rq e Er Hbody). eexists. split; reflexivity.
Qed.

(** X1.  A body that is a mapping whose "request" is a mapping is always
    answered with a review, by both webhooks, whatever else it holds: the
    review carries the request's uid, or the empty string when the request
    has none, in which case it is the denial for KeyError 'uid'. *)
Theorem mapping_request_is_answered (r rq : gmap string json) :
  r !! "request" = Some (JObj rq) →
  (∃ rev, ImageValidator.validate (Body (JObj r)) = Ok rev
          ∧ uid (response rev) = default (JStr "") (rq !! "uid"))
  ∧ (∃ rev, PodValidator.validate (Body (JObj r)) = Ok rev
            ∧ uid (response rev) = default (JStr "") (rq !! "uid"))
  ∧ (rq !! "uid" = None →
     ImageValidator.validate (Body (JObj r))
     = Ok (review (JStr "") false ("Validation error: " ++ exn_str (KeyError "uid")))
     ∧ PodValidator.validate (Body (JObj r))
       = Ok (review (JStr "") false ("Validation error: " ++ exn_str (KeyError "uid")))).
Proof.
  intros Er. split; [|split].
  - apply answered_with_uid; [exact Er|]. intros rev. apply image_body_echoes_uid, Er.
  - apply answered_with_uid; [exact Er|]. intros rev. apply pod_body_echoes_uid, Er.
  - intros Eu. unfold ImageValidator.validate, PodValidator.validate. split.
    + rewrite (exception_is_denied _ r rq _ Er (image_body_without_uid r rq Er Eu)).
      rewrite Eu. reflexivity.
    + rewrite (exception_is_denied _ r rq _ Er (pod_body_without_uid r rq Er Eu)).
      rewrite Eu. reflexivity.
Qed.

Lemma lookup_request_found (r : gmap string json) (v : json) :
  r !! "request" = Some v →
  truthy (JObj r) = true ∧ bool_decide (is_Some (r !! "request")) = true.
Proof.
  intros Er. split; [exact (truthy_dict _ _ _ Er)|].
  apply bool_decide_eq_true_2. eauto.
Qed.

Lemma lookup_request_absent (r : gmap string json) :
  r !! "request" = None → bool_decide (is_Some (r !! "request")) = false.
Proof. intros Er. apply bool_decide_eq_false_2. rewrite Er. apply is_Some_None. Qed.

Lemma image_body_invalid (req : json) :
  invalid_body req = true →
  ImageValidator.validate_body req = Ok (review (JStr "") false "Invalid request").
Proof.
  unfold invalid_body, ImageValidator.validate_body.
  destruct (truthy req) eqn:Ht; simpl; [|reflexivity].
  destruct req as [| | |s|l|r]; simpl; try discriminate.
  - intros Hs. apply negb_true_iff in Hs. rewrite Hs. reflexivity.
  - intros Hl. apply negb_true_iff in Hl. rewrite Hl. reflexivity.
  - destruct (r !! "request") as [v|] eqn:Er; [discriminate|]. reflexivity.
Qed.

Lemma pod_body_invalid (req : json) :
  invalid_body req = true →
  PodValidator.validate_body req = Ok (review (JStr "") false "Invalid request").
Proof.
  unfold invalid_body, PodValidator.validate_body.
  destruct (truthy req) eqn:Ht; simpl; [|reflexivity].
  destruct req as [| | |s|l|r]; simpl; try discriminate.
  - intros Hs. apply negb_true_iff in Hs. rewrite Hs. reflexivity.
  - intros Hl. apply negb_true_iff in Hl. rewrite Hl. reflexivity.
  - destruct (r !! "request") as [v|] eqn:Er; [discriminate|]. reflexivity.
Qed.

(** X3.  A falsy body, a mapping without the key "request", a list without
    the element "request" and a string that does not contain "request" are
    all answered with the denial "Invalid request" and the empty uid, by both
    webhooks. *)
Theorem invalid_body_is_denied (req : json) :
  invalid_body req = true →
  ImageValidator.validate (Body req) = Ok (review (JStr "") false "Invalid request")
  ∧ PodValidator.validate (Body req) = Ok (review (JStr "") false "Invalid request").
Proof.
  intros Hinv. unfold ImageValidator.validate, PodValidator.validate, try_except.
  rewrite (image_body_invalid _ Hinv), (pod_body_invalid _ Hinv). split; reflexivity.
Qed.

Lemma image_body_escapes (req : json) :
  escaping_body req = true → ∃ e, ImageValidator.validate_body req = Raise e.
Proof.
  unfold escaping_body, ImageValidator.validate_body.
  destruct (truthy req) eqn:Ht; simpl; [|discriminate].
  destruct req as [|b|n|s|l|r]; simpl; try discriminate; try (intros _; eauto; fail).
  - intros ->. simpl. eauto.
  - intros ->. simpl. eauto.
  - destruct (r !! "request") as [v|] eqn:Er; [|discriminate].
    rewrite bool_decide_eq_true_2 by eauto. simpl.
    destruct v; simpl; try discriminate; eauto.
Qed.

Lemma pod_body_escapes (req : json) :
  escaping_body req = true → ∃ e, PodValidator.validate_body req = Raise e.
Proof.
  unfold escaping_body, PodValidator.validate_body.
  destruct (truthy req) eqn:Ht; simpl; [|discriminate].
  destruct req as [|b|n|s|l|r]; simpl; try discriminate; try (intros _; eauto; fail).
  - intros ->. simpl. eauto.
  - intros ->. simpl. eauto.
  - destruct (r !! "request") as [v|] eqn:Er; [|discriminate].
    rewrite bool_decide_eq_true_2 by eauto. simpl.
    destruct v; simpl; try discriminate; eauto.
Qed.

(** The [except] clause raises on an escaping body: it calls [.get] on a
    value that is not a mapping. *)
Lemma on_exception_escapes (req : json) (e : exn) :
  escaping_body req = true → ∃ e', on_exception (Body req) e = Raise e'.
Proof.
  unfold escaping_body, on_exception.
  destruct req as [|b|n|s|l|r]; simpl; rewrite ?andb_false_r; try discriminate; eauto.
  destruct (r !! "request") as [v|]; simpl; rewrite ?andb_false_r; try discriminate.
  destruct v; simpl; rewrite ?andb_false_r; try discriminate; eauto.
Qed.

(** Every body is invalid, escaping, or a mapping whose "request" is a
    mapping. *)
Lemma body_classes (req : json) :
  escaping_body req = false →
  invalid_body req = true ∨ ∃ r rq, req = JObj r ∧ r !! "request" = Some (JObj rq).
Proof.
  unfold escaping_body, invalid_body.
  destruct (truthy req) eqn:Ht; simpl; [|auto].
  destruct req as [|b|n|s|l|r]; simpl; try discriminate.
  - intros ->. auto.
  - intros ->. auto.
  - destruct (r !! "request") as [[| | | | |rq]|] eqn:Er; try discriminate; intros _.
    + right. exists r, rq. split; [reflexivity | exact Er].
    + left. reflexivity.
Qed.

Lemma raises_iff_escaping (body : json → result admission_review) (req : json) :
  (invalid_body req = true → ∃ rev, body req = Ok rev) →
  (escaping_body req = true → ∃ e, body req = Raise e) →
  (∃ e, try_except (Body req) body = Raise e) ↔ escaping_body req = true.
Proof.
  intros Hinv Hesc. split.
  - intros [e He]. destruct (escaping_body req) eqn:E; [reflexivity|]. exfalso.
    destruct (body_classes req E) as [Hi|(r & rq & -> & Er)].
    + destruct (Hinv Hi) as [rev Hrev]. unfold try_except in He.
      rewrite Hrev in He. discriminate.
    + destruct (body (JObj r)) as [rev|e0] eqn:Hbody.
      * unfold try_except in He. rewrite Hbody in He. discriminate.
      * rewrite (exception_is_denied body r rq e0 Er Hbody) in He. discriminate.
  - intros E. destruct (Hesc E) as [e0 He0]. unfold try_except. rewrite He0.
    apply on_exception_escapes, E.
Qed.

(** X2.  The bodies on which a webhook raises instead of answering are
    exactly the escaping ones: a number other than 0 and [true], a string
    that contains "request", a list that holds the element "request", and a
    mapping whose "request" is present without being a mapping.  It is the
    same set for both webhooks. *)
Theorem handler_raises_iff (req : json) :
  ((∃ e, ImageValidator.validate (Body req) = Raise e) ↔ escaping_body req = true)
  ∧ ((∃ e, PodValidator.validate (Body req) = Raise e) ↔ escaping_body req = true).
Proof.
  unfold ImageValidator.validate, PodValidator.validate. split.
  - apply raises_iff_escaping; [|apply image_body_escapes].
    intros Hinv. rewrite (image_body_invalid _ Hinv). eauto.
  - apply raises_iff_escaping; [|apply pod_body_escapes].
    intros Hinv. rewrite (pod_body_invalid _ Hinv). eauto.
Qed.

Lemma default_dict_or_empty (o : option json) (m : gmap string json) :
  dict_or_empty o = Some m → default (JObj ∅) o = JObj m.
Proof. destruct o as [[]|]; simpl; congruence. Qed.

Lemma default_list_or_empty (o : option json) (l : list json) :
  list_or_empty o = Some l → default (JArr []) o = JArr l.
Proof. destruct o as [[]|]; simpl; congruence. Qed.

(** X4.  A request outside the exempt namespace whose object has no "spec"
    is denied by both webhooks with the validation error for KeyError 'spec',
    under the request's uid. *)
Theorem missing_spec_is_denied (r rq ob meta : gmap string json) (u : json) :
  r !! "request" = Some (JObj rq) →
  rq !! "uid" = Some u →
  rq !! "object" = Some (JObj ob) →
  dict_or_empty (ob !! "metadata") = Some meta →
  ob !! "spec" = None →
  (default (JStr "") (meta !! "namespace") ≠ JStr "image-validator-demo" →
   ImageValidator.validate (Body (JObj r))
   = Ok (review u false ("Validation error: " ++ exn_str (KeyError "spec"))))
  ∧ (default (JStr "") (meta !! "namespace") ≠ JStr "webhook-demo" →
     PodValidator.validate (Body (JObj r))
     = Ok (review u false ("Validation error: " ++ exn_str (KeyError "spec")))).
Proof.
  intros Er Eu Eo Em Es.
  destruct (lookup_request_found r _ Er) as [Ht Hfound].
  split; intros Hns.
  - unfold ImageValidator.validate.
    rewrite (exception_is_denied _ r rq (KeyError "spec") Er); [rewrite Eu; reflexivity|].
    unfold ImageValidator.validate_body. rewrite Ht. simpl. rewrite Hfound. simpl.
    rewrite Er. simpl. rewrite Eu. simpl. rewrite Eo. simpl.
    rewrite (default_dict_or_empty _ _ Em). simpl.
    rewrite (eq_str_false ImageValidator.exempt_namespace _ Hns). simpl.
    rewrite Es. reflexivity.
  - unfold PodValidator.validate.
    rewrite (exception_is_denied _ r rq (KeyError "spec") Er); [rewrite Eu; reflexivity|].
    unfold PodValidator.validate_body. rewrite Ht. simpl. rewrite Hfound. simpl.
    rewrite Er. simpl. rewrite Eu. simpl. rewrite Eo. simpl.
    rewrite (default_dict_or_empty _ _ Em). simpl.
    rewrite (eq_str_false PodValidator.exempt_namespace _ Hns). simpl.
    rewrite Es. reflexivity.
Qed.

End HandlerAnswers.

(** ** Beyond the claims: the aggregator of image-validator.py *)

Section AggregatorEdges.
Context `{PyText}.
Import ImageValidator.

(** The [try] block on a request that decodes, outside the exempt namespace:
    what is left is the loop over the containers. *)
Lemma image_body_decoded (req : json) (a : admission_request) :
  as_request req = Some a →
  request_namespace a ≠ JStr exempt_namespace →
  validate_body req
  = (errs ← check_containers (all_containers a) []; Ok (verdict (request_uid a) errs)).
Proof.
  unfold as_request. intros Hreq Hns.
  destruct req as [| | | | |r]; try discriminate.
  destruct (r !! "request") as [[| | | | |rq]|] eqn:Er; try discriminate.
  destruct (rq !! "uid") as [u|] eqn:Eu; try discriminate.
  destruct (rq !! "object") as [[| | | | |ob]|] eqn:Eo; try discriminate.
  destruct (dict_or_empty (ob !! "metadata")) as [meta|] eqn:Em; try discriminate.
  destruct (ob !! "spec") as [[| | | | |sp]|] eqn:Es; try discriminate.
  destruct (list_or_empty (sp !! "containers")) as [cs|] eqn:Ec; try discriminate.
  destruct (list_or_empty (sp !! "initContainers")) as [ics|] eqn:Ei; try discriminate.
  injection Hreq as <-. unfold all_containers in *. simpl in *.
  unfold validate_body.
  rewrite (truthy_dict _ _ _ Er). simpl.
  rewrite Er. rewrite bool_decide_eq_true_2 by eauto. simpl.
  rewrite Eu. simpl. rewrite Eo. simpl.
  rewrite (default_dict_or_empty _ _ Em). simpl.
  rewrite (eq_str_false exempt_namespace _ Hns). simpl.
  rewrite Es. simpl.
  rewrite (default_list_or_empty _ _ Ec), (default_list_or_empty _ _ Ei). simpl.
  destruct (check_containers (cs ++ ics) []) as [[|m l]|e]; reflexivity.
Qed.

Lemma request_of_decoded (req : json) (a : admission_request) :
  as_request req = Some a →
  ∃ r rq, req = JObj r ∧ r !! "request" = Some (JObj rq)
          ∧ rq !! "uid" = Some (request_uid a).
Proof.
  unfold as_request. intros Hreq.
  destruct req as [| | | | |r]; try discriminate.
  destruct (r !! "request") as [[| | | | |rq]|] eqn:Er; try discriminate.
  destruct (rq !! "uid") as [u|] eqn:Eu; try discriminate.
  exists r, rq. repeat case_match; simplify_eq. auto.
Qed.

Lemma check_containers_app (xs ys : list json) (errs : list string) :
  check_containers (xs ++ ys) errs
  = (errs' ← check_containers xs errs; check_containers ys errs').
Proof.
  revert errs. induction xs as [|x xs IH]; intros errs; simpl; [reflexivity|].
  destruct (check_container x errs) as [errs'|e]; simpl; [apply IH | reflexivity].
Qed.

(** X5.  One container that is not a mapping turns the whole answer into a
    validation error: the failures collected on the containers before it are
    dropped and the containers after it are not looked at.  The review is a
    denial whose message is the AttributeError for [.get] on that value. *)
Theorem unreadable_container_is_validation_error
    (req : json) (a : admission_request) (good rest : list json) (bad : json) :
  as_request req = Some a →
  request_namespace a ≠ JStr exempt_namespace →
  all_containers a = (good ++ bad :: rest)%list →
  forallb well_formed_container good = true →
  is_dict bad = false →
  validate (Body req)
  = Ok (review (request_uid a) false
          ("Validation error: " ++ exn_str (AttributeError (type_name bad) "get"))).
Proof.
  intros Hreq Hns Hall Hgood Hbad.
  destruct (request_of_decoded _ _ Hreq) as (r & rq & -> & Er & Eu).
  unfold validate.
  rewrite (exception_is_denied _ r rq (AttributeError (type_name bad) "get") Er);
    [rewrite Eu; reflexivity|].
  rewrite (image_body_decoded _ _ Hreq Hns), Hall, check_containers_app.
  rewrite (check_containers_spec _ _ Hgood). simpl.
  destruct bad; try discriminate; reflexivity.
Qed.

(** X6.  A pod whose spec lists no container, regular or init, is allowed
    outside the exempt namespace: no rule has anything to fail on. *)
Theorem no_containers_is_allowed (req : json) (a : admission_request) :
  as_request req = Some a →
  request_namespace a ≠ JStr exempt_namespace →
  all_containers a = [] →
  validate (Body req) = Ok (review (request_uid a) true "All validations passed").
Proof.
  intros Hreq Hns Hall. unfold validate, try_except.
  rewrite (image_body_decoded _ _ Hreq Hns), Hall. reflexivity.
Qed.

End AggregatorEdges.

(** ** Beyond the claims: the image rules *)

Section ImageRules.
Context `{PyText}.
Import ImageValidator.

#[local] Arguments in_list : simpl never.

(** [(a + sep + t).split(sep) = a.split(sep) + t.split(sep)]. *)
Lemma split_char_app (sep : ascii) (a t : string) :
  split_char sep (a ++ String sep t) = (split_char sep a ++ split_char sep t)%list.
Proof.
  induction a as [|c a IH]; simpl.
  - rewrite Ascii.eqb_refl. reflexivity.
  - destruct (Ascii.eqb c sep); [rewrite IH; reflexivity|].
    rewrite IH. destruct (split_char_cons sep a) as [h [r ->]]. reflexivity.
Qed.

Lemma last_split_char (sep : ascii) (a t : string) :
  ¬ has_char sep t →
  List.last (split_char sep (a ++ String sep t)) "" = t.
Proof.
  intros Hno. rewrite split_char_app, (split_char_no_sep _ _ Hno).
  apply List.last_last.
Qed.

Lemma has_char_app (c : ascii) (a b : string) :
  has_char c (a ++ b) ↔ has_char c a ∨ has_char c b.
Proof.
  unfold has_char. induction a as [|x a IH]; simpl.
  - split; [auto | intros [Hin|Hin]; [inversion Hin | exact Hin]].
  - rewrite !elem_of_cons, IH. tauto.
Qed.

Lemma has_char_cons (c x : ascii) (s : string) :
  has_char c (String x s) ↔ c = x ∨ has_char c s.
Proof. unfold has_char. simpl. apply elem_of_cons. Qed.

Lemma has_char_dec (c : ascii) (s : string) : has_char c s ∨ ¬ has_char c s.
Proof.
  destruct (is_substring (String c "") s) eqn:E.
  - left. apply is_substring_char, E.
  - right. intros Hin. apply is_substring_char in Hin. congruence.
Qed.

(** A string that holds [c] splits at the last [c]. *)
Lemma split_at_last (c : ascii) (s : string) :
  has_char c s → ∃ a t, s = a ++ String c t ∧ ¬ has_char c t.
Proof.
  induction s as [|x s IH]; intros Hin.
  - inversion Hin.
  - destruct (has_char_dec c s) as [Hs|Hs].
    + destruct (IH Hs) as (a & t & -> & Ht). exists (String x a), t. auto.
    + apply has_char_cons in Hin as [->|Hin]; [|contradiction].
      exists "", s. auto.
Qed.

Lemma tag_rule_with_colon (a t : string) (container_name : json) :
  ¬ has_char ":" t →
  validate_image_tag (JStr (a ++ ":" ++ t)) container_name
  = if in_list t BLOCKED_TAGS
    then Ok (true, container_prefix container_name ++ "Tag '" ++ t
                     ++ "' is blocked. Use specific version tags.")
    else Ok (false, "").
Proof.
  intros Hno. unfold validate_image_tag.
  change (a ++ ":" ++ t) with (a ++ String ":" t).
  rewrite (truthy_str _ (app_sep_nonempty _ _ _)). simpl.
  assert (Hcolon : is_substring ":" (a ++ String ":" t) = true).
  { apply is_substring_char, has_char_app. right. apply has_char_cons. auto. }
  rewrite Hcolon. simpl. rewrite (last_split_char _ _ _ Hno). reflexivity.
Qed.

Lemma in_blocked_tags (t : string) : in_list t BLOCKED_TAGS = true ↔ t = "latest".
Proof.
  rewrite in_list_elem_of. unfold BLOCKED_TAGS. rewrite list_elem_of_singleton.
  reflexivity.
Qed.

(** X7.  When the image holds a ':', the tag the rule tests is the text
    after the last ':': the rule blocks the image exactly when that text is
    "latest", and otherwise passes with an empty message. *)
Theorem tag_is_text_after_last_colon (a t : string) (container_name : json) :
  ¬ has_char ":" t →
  (t = "latest" →
   validate_image_tag (JStr (a ++ ":" ++ t)) container_name
   = Ok (true, container_prefix container_name
                 ++ "Tag 'latest' is blocked. Use specific version tags."))
  ∧ (t ≠ "latest" →
     validate_image_tag (JStr (a ++ ":" ++ t)) container_name = Ok (false, "")).
Proof.
  intros Hno. rewrite (tag_rule_with_colon _ _ _ Hno). split.
  - intros ->. reflexivity.
  - intros Hne. destruct (in_list t BLOCKED_TAGS) eqn:E; [|reflexivity].
    apply in_blocked_tags in E. contradiction.
Qed.

(** X8.  An image without a tag that names its registry with a port, such as
    host:5000/app, passes the tag rule: the text after the only ':' is
    "5000/app", not "latest", although the image resolves to the latest
    tag. *)
Theorem registry_port_hides_missing_tag
    (host port path : string) (container_name : json) :
  ¬ has_char ":" port →
  ¬ has_char ":" path →
  validate_image_tag (JStr (host ++ ":" ++ port ++ "/" ++ path)) container_name
  = Ok (false, "").
Proof.
  intros Hport Hpath.
  assert (Hno : ¬ has_char ":" (port ++ "/" ++ path)).
  { rewrite has_char_app. change ("/" ++ path) with (String "/" path).
    rewrite has_char_cons. intros [?|[?|?]]; [contradiction | discriminate | contradiction]. }
  rewrite (tag_rule_with_colon host (port ++ "/" ++ path) _ Hno).
  destruct (in_list (port ++ "/" ++ path) BLOCKED_TAGS) eqn:E; [|reflexivity].
  apply in_blocked_tags in E. exfalso.
  assert (Hslash : has_char "/" (port ++ "/" ++ path)).
  { apply has_char_app. right. apply has_char_cons. auto. }
  rewrite E in Hslash. revert Hslash. unfold has_char. simpl.
  rewrite !elem_of_cons, elem_of_nil. intros Hin.
  repeat (destruct Hin as [Hin|Hin]; [discriminate|]). exact Hin.
Qed.

(** X9.  A container without an image (absent, empty or otherwise falsy) is
    reported once: the registry rule fails with "Image is required", and the
    tag rule, which builds the same message, answers that no tag is blocked,
    so the aggregator records nothing for it. *)
Theorem missing_image_is_reported_once (c : gmap string json) :
  truthy (image_of (JObj c)) = false →
  rule_failure Registry (JObj c)
  = [container_prefix (name_of (JObj c)) ++ "Image is required"]
  ∧ rule_failure Tag (JObj c) = [].
Proof.
  intros Himg. unfold rule_failure, run_rule, validate_image_registry, validate_image_tag.
  rewrite Himg. split; reflexivity.
Qed.

End ImageRules.

(** ** Beyond the claims: the resource and security-context rules *)

Section ContainerRules.
Context `{PyText}.
Import ImageValidator.

(** X10.  The resource rule tests truth, not presence: on a container whose
    [resources], [limits] and [requests] are absent or mappings, a quantity
    that is present but empty (an empty string, 0, null) is reported as
    missing like an absent one, and the message lists all of them in the
    rule's order. *)
Theorem empty_quantity_counts_as_missing (c : gmap string json) (container_name : json) :
  resources_shape c = true →
  (unusable_quantities c = [] →
   validate_resources (JObj c) container_name = Ok (true, ""))
  ∧ (unusable_quantities c ≠ [] →
     validate_resources (JObj c) container_name
     = Ok (false, container_prefix container_name ++ "Missing "
                    ++ join ", " (unusable_quantities c)))
  ∧ (∀ section k label v,
        (section, k, label) ∈ required_quantities →
        quantity c section k = Some v →
        truthy v = false →
        label ∈ unusable_quantities c).
Proof.
  intros Hshape. rewrite (resources_by_truth _ _ Hshape). split; [|split].
  - intros ->. reflexivity.
  - destruct (unusable_quantities c); [congruence | reflexivity].
  - intros section k label v Hin Hq Hv. unfold unusable_quantities.
    apply list_elem_of_omap. exists (section, k, label). split; [exact Hin|].
    simpl. rewrite Hq, Hv. reflexivity.
Qed.

Lemma security_by_settings (c : gmap string json) (container_name : json) :
  typed_security_context c = true →
  validate_security_context (JObj c) container_name
  = match unmet_settings c with
    | [] => Ok (true, "")
    | _ :: _ => Ok (false, container_prefix container_name ++ "Required "
                             ++ join ", " (unmet_settings c))
    end.
Proof.
  unfold typed_security_context, unmet_settings, nested, validate_security_context.
  intros Htyped. simpl.
  destruct (c !! "securityContext") as [[| | | | |sc]|] eqn:Esc; simpl in *;
    try discriminate.
  - destruct (sc !! "runAsNonRoot") as [[|[]| | | |]|];
      destruct (sc !! "allowPrivilegeEscalation") as [[|[]| | | |]|];
      destruct (sc !! "readOnlyRootFilesystem") as [[|[]| | | |]|];
      simpl in *; try discriminate; reflexivity.
  - rewrite ?lookup_empty_json. reflexivity.
Qed.

(** X11.  On a container with a typed security context, the message of the
    security-context rule lists every setting that is not as required, not
    only the first, in the order runAsNonRoot, allowPrivilegeEscalation,
    readOnlyRootFilesystem; the rule passes exactly when the list is
    empty. *)
Theorem security_message_lists_unmet_settings
    (c : gmap string json) (container_name : json) :
  typed_security_context c = true →
  (unmet_settings c = [] ↔
   validate_security_context (JObj c) container_name = Ok (true, ""))
  ∧ (unmet_settings c ≠ [] →
     validate_security_context (JObj c) container_name
     = Ok (false, container_prefix container_name ++ "Required "
                    ++ join ", " (unmet_settings c))).
Proof.
  intros Htyped. rewrite (security_by_settings _ _ Htyped).
  destruct (unmet_settings c); repeat split; intros; congruence.
Qed.

Lemma rule_passes (r : rule) (container : json) :
  well_formed_container container = true →
  rule_failure r container = [] →
  ∃ msg, run_rule r container = Ok (negb (failure_flag r), msg).
Proof.
  intros Hwf. destruct (rule_total container r Hwf) as (flag & msg & Hrun).
  unfold rule_failure. rewrite Hrun.
  destruct flag, (failure_flag r); simpl; try discriminate; eauto.
Qed.

Lemma image_of_passing (c : gmap string json) (msg : string) :
  well_formed_container (JObj c) = true →
  validate_image_registry (image_of (JObj c)) (name_of (JObj c)) = Ok (true, msg) →
  ∃ image, c !! "image" = Some (JStr image) ∧ image ≠ "".
Proof.
  simpl. rewrite !andb_true_iff. intros [[[[Himg _] _] _] _].
  unfold validate_image_registry.
  destruct (c !! "image") as [[| | |s| |]|]; simpl in *; try discriminate.
  destruct (String.eqb_spec s ""); simpl; [discriminate|]. eauto.
Qed.

Lemma tagged_of_passing (image : string) (container_name : json) (msg : string) :
  image ≠ "" →
  validate_image_tag (JStr image) container_name = Ok (false, msg) →
  explicitly_tagged image.
Proof.
  intros Hne Hrun. destruct (has_char_dec ":" image) as [Hcolon|Hno].
  - destruct (split_at_last _ _ Hcolon) as (a & t & -> & Ht).
    exists a, t. split; [reflexivity|]. split; [exact Ht|]. intros ->.
    change (a ++ String ":" "latest") with (a ++ ":" ++ "latest") in Hrun.
    rewrite (tag_rule_with_colon _ _ _ Ht) in Hrun. discriminate.
  - exfalso. unfold validate_image_tag in Hrun. rewrite (truthy_str _ Hne) in Hrun.
    simpl in Hrun. rewrite (is_substring_char_false _ _ Hno) in Hrun. discriminate.
Qed.

Lemma approved_of_passing (image : string) (container_name : json) (msg : string) :
  validate_image_registry (JStr image) container_name = Ok (true, msg) →
  from_approved_registry image.
Proof.
  intros Hrun registry rest -> Hslash Hmark.
  assert (Hm : is_substring "." registry || is_substring ":" registry = true).
  { destruct Hmark as [Hm|Hm]; apply is_substring_char in Hm; rewrite Hm;
      [reflexivity | apply orb_true_r]. }
  rewrite (registry_with_marker _ _ _ Hslash Hm) in Hrun.
  apply in_list_elem_of.
  destruct (in_list registry APPROVED_REGISTRIES); [reflexivity | discriminate].
Qed.

Lemma usable_of_passing (c : gmap string json) (container_name : json) (msg : string) :
  resources_shape c = true →
  validate_resources (JObj c) container_name = Ok (true, msg) →
  usable (quantity c "limits" "cpu") ∧ usable (quantity c "limits" "memory")
  ∧ usable (quantity c "requests" "cpu") ∧ usable (quantity c "requests" "memory").
Proof.
  intros Hshape. rewrite (resources_by_truth _ _ Hshape).
  unfold unusable_quantities, usable. simpl.
  destruct (quantity c "limits" "cpu") as [v1|]; [destruct (truthy v1) eqn:T1|];
    destruct (quantity c "limits" "memory") as [v2|]; try destruct (truthy v2) eqn:T2;
    destruct (quantity c "requests" "cpu") as [v3|]; try destruct (truthy v3) eqn:T3;
    destruct (quantity c "requests" "memory") as [v4|]; try destruct (truthy v4) eqn:T4;
    simpl; try discriminate; intros _; repeat split; eauto.
Qed.

Lemma hardened_of_passing (c : gmap string json) (container_name : json) (msg : string) :
  typed_security_context c = true →
  validate_security_context (JObj c) container_name = Ok (true, msg) →
  hardened c.
Proof.
  intros Htyped. rewrite (security_by_settings _ _ Htyped).
  unfold unmet_settings, hardened. simpl.
  destruct (nested c "securityContext" "runAsNonRoot") as [[|[]| | | |]|];
    destruct (nested c "securityContext" "allowPrivilegeEscalation") as [[|[]| | | |]|];
    destruct (nested c "securityContext" "readOnlyRootFilesystem") as [[|[]| | | |]|];
    simpl; try discriminate; auto.
Qed.

Lemma shape_of_well_formed (c : gmap string json) :
  well_formed_container (JObj c) = true → resources_shape c = true.
Proof.
  simpl. unfold resources_shape. rewrite !andb_true_iff. tauto.
Qed.

Lemma compliant_of_no_failure (container : json) :
  well_formed_container container = true →
  failure_messages container = [] →
  compliant container.
Proof.
  intros Hwf Hnil. unfold failure_messages, rules in Hnil. simpl in Hnil.
  rewrite app_nil_r in Hnil.
  apply app_eq_nil in Hnil as [H1 Hnil]. apply app_eq_nil in Hnil as [H2 Hnil].
  apply app_eq_nil in Hnil as [H3 H4].
  destruct (rule_passes _ _ Hwf H1) as [m1 R1]. destruct (rule_passes _ _ Hwf H2) as [m2 R2].
  destruct (rule_passes _ _ Hwf H3) as [m3 R3]. destruct (rule_passes _ _ Hwf H4) as [m4 R4].
  destruct container as [| | | | |c]; try discriminate.
  destruct (image_of_passing c m1 Hwf R1) as (image & Eimg & Hne).
  simpl in R1, R2, R3, R4. rewrite Eimg in R1, R2. simpl in R1, R2.
  exists c, image. split; [reflexivity|]. split; [exact Eimg|].
  split; [exact (tagged_of_passing _ _ _ Hne R2)|].
  split; [exact (approved_of_passing _ _ _ R1)|].
  destruct (usable_of_passing c _ _ (shape_of_well_formed c Hwf) R3) as (U1 & U2 & U3 & U4).
  repeat (split; [assumption|]).
  intros Htyped. exact (hardened_of_passing c _ _ Htyped R4).
Qed.

(** X12.  What admission guarantees.  When the webhook allows a well-formed
    request outside the exempt namespace, every container, regular or init,
    is compliant: its image is a string that holds a ':' and whose text after
    the last ':' is not "latest" (that text may be empty); if the image holds
    a '/' and the text before its first '/' holds '.' or ':', that text is an
    approved registry; its four quantities are present and not empty; and its
    security context, when typed, has the three required settings.  Nothing
    is said of the registry of an image without '/', such as "nginx:1.21",
    which passes the registry rule. *)
Theorem admitted_pod_is_compliant
    (req : json) (a : admission_request) (rev : admission_review) :
  as_request req = Some a →
  request_namespace a ≠ JStr exempt_namespace →
  forallb well_formed_container (all_containers a) = true →
  validate (Body req) = Ok rev →
  allowed (response rev) = true →
  ∀ container, container ∈ all_containers a → compliant container.
Proof.
  intros Hreq Hns Hwf Hrun Hallowed container Hin.
  rewrite (validate_well_formed _ _ Hreq Hns Hwf) in Hrun. injection Hrun as <-.
  assert (Hnil : flat_map failure_messages (all_containers a) = []).
  { destruct (flat_map failure_messages (all_containers a)); [reflexivity|].
    simpl in Hallowed. discriminate. }
  apply list_elem_of_In in Hin.
  apply compliant_of_no_failure.
  - rewrite forallb_forall in Hwf. apply Hwf, Hin.
  - destruct (failure_messages container) as [|m l] eqn:E; [reflexivity|]. exfalso.
    assert (Hm : In m (flat_map failure_messages (all_containers a))).
    { apply in_flat_map. exists container. split; [exact Hin|]. rewrite E. left. reflexivity. }
    rewrite Hnil in Hm. exact Hm.
Qed.

(** A string that holds [c] splits at the first [c]. *)
Lemma split_at_first (c : ascii) (s : string) :
  has_char c s → ∃ a t, s = a ++ String c t ∧ ¬ has_char c a.
Proof.
  induction s as [|x s IH]; intros Hin.
  - inversion Hin.
  - destruct (ascii_dec c x) as [->|Hne].
    + exists "", s. split; [reflexivity|]. intros Hempty. inversion Hempty.
    + apply has_char_cons in Hin as [?|Hin]; [contradiction|].
      destruct (IH Hin) as (a & t & -> & Ha). exists (String x a), t.
      split; [reflexivity|]. rewrite has_char_cons. tauto.
Qed.

Lemma registry_passes_approved (image : string) (container_name : json) :
  image ≠ "" →
  from_approved_registry image →
  validate_image_registry (JStr image) container_name = Ok (true, "").
Proof.
  intros Hne Happroved. destruct (has_char_dec "/" image) as [Hslash|Hno].
  - destruct (split_at_first _ _ Hslash) as (registry & rest & -> & Hreg).
    destruct (is_substring "." registry || is_substring ":" registry) eqn:Hm.
    + change (registry ++ String "/" rest) with (registry ++ "/" ++ rest).
      rewrite (registry_with_marker _ _ _ Hreg Hm).
      assert (Hin : registry ∈ APPROVED_REGISTRIES).
      { apply (Happroved registry rest eq_refl Hreg).
        apply orb_true_iff in Hm as [Hm|Hm]; apply is_substring_char in Hm; auto. }
      apply in_list_elem_of in Hin. rewrite Hin. reflexivity.
    + unfold validate_image_registry.
      rewrite (truthy_str _ (app_sep_nonempty _ _ _)). simpl.
      rewrite (split_char_first _ _ _ Hreg).
      destruct (split_char_cons "/" rest) as [h [r ->]]. simpl.
      rewrite Hm. reflexivity.
  - unfold validate_image_registry. rewrite (truthy_str _ Hne). simpl.
    rewrite (split_char_no_sep _ _ Hno). reflexivity.
Qed.

Lemma no_failure_of_compliant (container : json) :
  compliant container →
  typed_container container = true →
  well_formed_container container = true ∧ failure_messages container = [].
Proof.
  intros (c & image & -> & Eimg & (a & t & -> & Ht & Hlatest) & Happroved
          & U1 & U2 & U3 & U4 & Hhard) Htyped.
  simpl in Htyped. specialize (Hhard Htyped).
  assert (Hshape : resources_shape c = true ∧ unusable_quantities c = []).
  { destruct U1 as (v1 & E1 & T1), U2 as (v2 & E2 & T2), U3 as (v3 & E3 & T3),
      U4 as (v4 & E4 & T4).
    unfold unusable_quantities. simpl. rewrite E1, E2, E3, E4, T1, T2, T3, T4.
    split; [|reflexivity]. clear -E1 E3.
    unfold resources_shape, quantity, nested in *.
    destruct (c !! "resources") as [[| | | | |r]|]; try discriminate. simpl.
    destruct (r !! "limits") as [[]|]; try discriminate.
    destruct (r !! "requests") as [[]|]; try discriminate. reflexivity. }
  destruct Hshape as [Hshape Husable].
  assert (Hunmet : unmet_settings c = []).
  { destruct Hhard as (S1 & S2 & S3). unfold unmet_settings. simpl.
    rewrite S1, S2, S3. reflexivity. }
  assert (Hwf : well_formed_container (JObj c) = true).
  { simpl. rewrite Eimg. simpl. unfold resources_shape in Hshape.
    assert (Hsc : optional is_dict (c !! "securityContext") = true).
    { unfold typed_security_context in Htyped.
      apply andb_true_iff in Htyped as [Hty _]. apply andb_true_iff in Hty as [Hty _].
      apply andb_true_iff in Hty as [Hsc _]. exact Hsc. }
    rewrite Hshape, Hsc. reflexivity. }
  split; [exact Hwf|].
  unfold failure_messages, rules, rule_failure. simpl. rewrite Eimg. simpl.
  rewrite (registry_passes_approved _ _ (app_sep_nonempty a ":" t) Happroved).
  rewrite (tag_rule_with_colon _ _ _ Ht).
  assert (Hnot : in_list t BLOCKED_TAGS = false).
  { destruct (in_list t BLOCKED_TAGS) eqn:E; [|reflexivity].
    apply in_blocked_tags in E. contradiction. }
  rewrite Hnot, (resources_by_truth _ _ Hshape), Husable.
  rewrite (security_by_settings _ _ Htyped), Hunmet. reflexivity.
Qed.

(** X13.  The converse: a request outside the exempt namespace all of whose
    containers are compliant, with typed security contexts, is allowed with
    the message that all validations passed. *)
Theorem compliant_pod_is_admitted (req : json) (a : admission_request) :
  as_request req = Some a →
  request_namespace a ≠ JStr exempt_namespace →
  (∀ container, container ∈ all_containers a →
                compliant container ∧ typed_container container = true) →
  validate (Body req) = Ok (review (request_uid a) true "All validations passed").
Proof.
  intros Hreq Hns Hall.
  assert (Hboth : forallb well_formed_container (all_containers a) = true
                  ∧ flat_map failure_messages (all_containers a) = []).
  { induction (all_containers a) as [|c cs IH]; [split; reflexivity|].
    destruct (Hall c) as [Hc Ht]; [left|].
    destruct (no_failure_of_compliant c Hc Ht) as [Hwf Hnil].
    destruct IH as [IHwf IHnil]; [intros c' Hc'; apply Hall; right; exact Hc'|].
    simpl. rewrite Hwf, Hnil, IHwf, IHnil. split; reflexivity. }
  destruct Hboth as [Hwf Hnil].
  rewrite (validate_well_formed _ _ Hreq Hns Hwf), Hnil. reflexivity.
Qed.

End ContainerRules.

(** ** Beyond the claims: validate-pod.py *)

Section PodRules.
Context `{PyText}.
Import PodValidator.

(** The [try] block on a request that decodes, outside the exempt namespace:
    what is left is the loop over the regular containers. *)
Lemma pod_body_decoded (req : json) (a : pod_request) :
  as_pod_request req = Some a →
  pod_namespace a ≠ JStr exempt_namespace →
  validate_body req
  = ('(allowed, msg) ← check_containers (pod_containers a) true "Pod is valid";
     Ok (review (pod_uid a) allowed msg)).
Proof.
  unfold as_pod_request. intros Hreq Hns.
  destruct req as [| | | | |r]; try discriminate.
  destruct (r !! "request") as [[| | | | |rq]|] eqn:Er; try discriminate.
  destruct (rq !! "uid") as [u|] eqn:Eu; try discriminate.
  destruct (rq !! "object") as [[| | | | |ob]|] eqn:Eo; try discriminate.
  destruct (dict_or_empty (ob !! "metadata")) as [meta|] eqn:Em; try discriminate.
  destruct (ob !! "spec") as [[| | | | |sp]|] eqn:Es; try discriminate.
  destruct (list_or_empty (sp !! "containers")) as [cs|] eqn:Ec; try discriminate.
  injection Hreq as <-. simpl in *.
  unfold validate_body.
  rewrite (truthy_dict _ _ _ Er). simpl.
  rewrite Er. rewrite bool_decide_eq_true_2 by eauto. simpl.
  rewrite Eu. simpl. rewrite Eo. simpl.
  rewrite (default_dict_or_empty _ _ Em). simpl.
  rewrite (eq_str_false exempt_namespace _ Hns). simpl.
  rewrite Es. simpl.
  rewrite (default_list_or_empty _ _ Ec). reflexivity.
Qed.

Lemma request_of_pod_decoded (req : json) (a : pod_request) :
  as_pod_request req = Some a →
  ∃ r rq, req = JObj r ∧ r !! "request" = Some (JObj rq) ∧ rq !! "uid" = Some (pod_uid a).
Proof.
  unfold as_pod_request. intros Hreq.
  destruct req as [| | | | |r]; try discriminate.
  destruct (r !! "request") as [[| | | | |rq]|] eqn:Er; try discriminate.
  destruct (rq !! "uid") as [u|] eqn:Eu; try discriminate.
  exists r, rq. repeat case_match; simplify_eq; auto.
Qed.

Lemma setting_of_container (c : gmap string json) :
  optional is_dict (c !! "securityContext") = true →
  (sc ← dict_get (JObj c) "securityContext" (JObj ∅);
   dict_get sc "runAsNonRoot" (JBool false))
  = Ok (run_as_non_root_setting c).
Proof.
  unfold run_as_non_root_setting, nested. simpl.
  destruct (c !! "securityContext") as [[]|]; simpl; try discriminate; reflexivity.
Qed.

Lemma check_accepted (container : json) (rest : list json) (allowed : bool) (msg : string) :
  runs_as_non_root container = true →
  check_containers (container :: rest) allowed msg = check_containers rest allowed msg.
Proof.
  destruct container as [| | | | |c]; try discriminate. simpl.
  intros Hc. apply andb_true_iff in Hc as [Hsc Hv].
  pose proof (setting_of_container c Hsc) as Hset. simpl in Hset.
  destruct (dict_get (default (JObj ∅) (c !! "securityContext")) "runAsNonRoot" (JBool false))
    as [v|e]; simpl in *; [|discriminate].
  injection Hset as ->. rewrite Hv. reflexivity.
Qed.

Lemma check_accepted_prefix (good rest : list json) (allowed : bool) (msg : string) :
  forallb runs_as_non_root good = true →
  check_containers (good ++ rest) allowed msg = check_containers rest allowed msg.
Proof.
  induction good as [|c good IH]; simpl; [reflexivity|]. intros Hgood.
  apply andb_true_iff in Hgood as [Hc Hgood].
  rewrite <- (IH Hgood). apply (check_accepted c (good ++ rest)), Hc.
Qed.

Lemma check_objected (c : gmap string json) (rest : list json) (allowed : bool) (msg : string) :
  runs_as_root (JObj c) = true →
  check_containers (JObj c :: rest) allowed msg
  = match c !! "name" with
    | Some n => Ok (false, "Container '" ++ py_str n ++ "' must set runAsNonRoot=true")
    | None => Raise (KeyError "name")
    end.
Proof.
  simpl. intros Hc. apply andb_true_iff in Hc as [Hsc Hv].
  apply negb_true_iff in Hv.
  pose proof (setting_of_container c Hsc) as Hset. simpl in Hset.
  destruct (dict_get (default (JObj ∅) (c !! "securityContext")) "runAsNonRoot" (JBool false))
    as [v|e]; simpl in *; [|discriminate].
  injection Hset as ->. rewrite Hv. simpl. destruct (c !! "name"); reflexivity.
Qed.

(** X14.  validate-pod.py stops at the first container that does not run as
    non-root: the denial names that container, and the containers after it
    are not looked at, whatever they are. *)
Theorem pod_validator_names_first_offender
    (req : json) (a : pod_request) (good rest : list json)
    (c : gmap string json) (n : json) :
  as_pod_request req = Some a →
  pod_namespace a ≠ JStr exempt_namespace →
  pod_containers a = (good ++ JObj c :: rest)%list →
  forallb runs_as_non_root good = true →
  runs_as_root (JObj c) = true →
  c !! "name" = Some n →
  validate (Body req)
  = Ok (review (pod_uid a) false
          ("Container '" ++ py_str n ++ "' must set runAsNonRoot=true")).
Proof.
  intros Hreq Hns Hcs Hgood Hbad Hname. unfold validate, try_except.
  rewrite (pod_body_decoded _ _ Hreq Hns), Hcs, (check_accepted_prefix _ _ _ _ Hgood).
  rewrite (check_objected _ _ _ _ Hbad), Hname. reflexivity.
Qed.

(** X15.  When that first container has no name, the denial is the
    validation error for KeyError 'name': the message is built with
    [c['name']], where image-validator.py would say 'unknown'. *)
Theorem unnamed_offender_is_validation_error
    (req : json) (a : pod_request) (good rest : list json) (c : gmap string json) :
  as_pod_request req = Some a →
  pod_namespace a ≠ JStr exempt_namespace →
  pod_containers a = (good ++ JObj c :: rest)%list →
  forallb runs_as_non_root good = true →
  runs_as_root (JObj c) = true →
  c !! "name" = None →
  validate (Body req)
  = Ok (review (pod_uid a) false ("Validation error: " ++ exn_str (KeyError "name"))).
Proof.
  intros Hreq Hns Hcs Hgood Hbad Hname.
  destruct (request_of_pod_decoded _ _ Hreq) as (r & rq & -> & Er & Eu).
  unfold validate.
  rewrite (exception_is_denied _ r rq (KeyError "name") Er); [rewrite Eu; reflexivity|].
  rewrite (pod_body_decoded _ _ Hreq Hns), Hcs, (check_accepted_prefix _ _ _ _ Hgood).
  rewrite (check_objected _ _ _ _ Hbad), Hname. reflexivity.
Qed.

Lemma check_readable (cs : list json) :
  forallb (λ c, runs_as_non_root c || runs_as_root c) cs = true →
  if forallb runs_as_non_root cs
  then check_containers cs true "Pod is valid" = Ok (true, "Pod is valid")
  else (∃ msg, check_containers cs true "Pod is valid" = Ok (false, msg))
       ∨ check_containers cs true "Pod is valid" = Raise (KeyError "name").
Proof.
  induction cs as [|c cs IH]; [reflexivity|]. cbn [forallb]. intros Hread.
  apply andb_true_iff in Hread as [Hc Hcs]. specialize (IH Hcs).
  destruct (runs_as_non_root c) eqn:Egood.
  - rewrite (check_accepted _ _ _ _ Egood). exact IH.
  - simpl in Hc. destruct c as [| | | | |m]; try discriminate.
    cbn [andb]. rewrite (check_objected _ _ _ _ Hc).
    destruct (m !! "name"); eauto.
Qed.

(** X16.  On a request outside the exempt namespace whose regular containers
    are mappings with a securityContext that is absent or a mapping,
    validate-pod.py allows exactly when every one of them has a true
    runAsNonRoot; a pod without regular containers is allowed. *)
Theorem pod_is_valid_iff_all_run_as_non_root (req : json) (a : pod_request) :
  as_pod_request req = Some a →
  pod_namespace a ≠ JStr exempt_namespace →
  forallb (λ c, runs_as_non_root c || runs_as_root c) (pod_containers a) = true →
  ∃ rev, validate (Body req) = Ok rev
         ∧ uid (response rev) = pod_uid a
         ∧ (allowed (response rev) = true
            ↔ forallb runs_as_non_root (pod_containers a) = true)
         ∧ (forallb runs_as_non_root (pod_containers a) = true →
            rev = review (pod_uid a) true "Pod is valid").
Proof.
  intros Hreq Hns Hread.
  destruct (request_of_pod_decoded _ _ Hreq) as (r & rq & -> & Er & Eu).
  pose proof (check_readable _ Hread) as Hcheck.
  pose proof (pod_body_decoded _ _ Hreq Hns) as Hbody.
  unfold validate.
  destruct (forallb runs_as_non_root (pod_containers a)).
  - rewrite Hcheck in Hbody. unfold try_except. rewrite Hbody.
    eexists. split; [reflexivity|]. simpl. auto.
  - destruct Hcheck as [[msg Hcheck]|Hcheck]; rewrite Hcheck in Hbody.
    + unfold try_except. rewrite Hbody. eexists. split; [reflexivity|]. simpl.
      repeat split; intros; discriminate.
    + rewrite (exception_is_denied _ r rq _ Er Hbody), Eu.
      eexists. split; [reflexivity|]. simpl. repeat split; intros; discriminate.
Qed.

(** Two envelopes that agree on the uid, the metadata and the regular
    containers run the same [try] block. *)
Lemma pod_body_same (r1 rq1 ob1 r2 rq2 ob2 : gmap string json) (sp1 sp2 : json) :
  r1 !! "request" = Some (JObj rq1) →
  r2 !! "request" = Some (JObj rq2) →
  rq1 !! "uid" = rq2 !! "uid" →
  rq1 !! "object" = Some (JObj ob1) →
  rq2 !! "object" = Some (JObj ob2) →
  ob1 !! "metadata" = ob2 !! "metadata" →
  ob1 !! "spec" = Some sp1 →
  ob2 !! "spec" = Some sp2 →
  dict_get sp1 "containers" (JArr []) = dict_get sp2 "containers" (JArr []) →
  validate_body (JObj r1) = validate_body (JObj r2).
Proof.
  intros Er1 Er2 Eu Eo1 Eo2 Em Es1 Es2 Ec. unfold validate_body.
  rewrite (truthy_dict _ _ _ Er1), (truthy_dict _ _ _ Er2). simpl.
  rewrite Er1, Er2. rewrite !bool_decide_eq_true_2 by eauto. simpl.
  rewrite Eu. destruct (rq2 !! "uid") as [u|]; simpl; [|reflexivity].
  rewrite Eo1, Eo2. simpl. rewrite Em.
  destruct (default (JObj ∅) (ob2 !! "metadata")) as [| | | | |meta]; simpl;
    try reflexivity.
  destruct (eq_str exempt_namespace (default (JStr "") (meta !! "namespace")));
    [reflexivity|]. simpl.
  rewrite Es1, Es2. simpl. rewrite Ec. reflexivity.
Qed.

Lemma try_except_same (body : json → result admission_review)
      (r1 rq1 r2 rq2 : gmap string json) :
  r1 !! "request" = Some (JObj rq1) →
  r2 !! "request" = Some (JObj rq2) →
  rq1 !! "uid" = rq2 !! "uid" →
  body (JObj r1) = body (JObj r2) →
  try_except (Body (JObj r1)) body = try_except (Body (JObj r2)) body.
Proof.
  intros Er1 Er2 Eu Hbody. destruct (body (JObj r2)) as [rev|e] eqn:H2.
  - unfold try_except. rewrite Hbody, H2. reflexivity.
  - rewrite (exception_is_denied body r1 rq1 e Er1 Hbody).
    rewrite (exception_is_denied body r2 rq2 e Er2 H2), Eu. reflexivity.
Qed.

(** X17.  validate-pod.py never reads [initContainers]: whatever is stored
    under that key of the pod's spec, the answer is the same. *)
Theorem pod_validator_ignores_init_containers
    (r rq ob sp : gmap string json) (v : json) :
  validate (Body (with_spec r rq ob (JObj (<["initContainers" := v]> sp))))
  = validate (Body (with_spec r rq ob (JObj sp))).
Proof.
  unfold validate, with_spec.
  eapply try_except_same; [apply lookup_insert_eq | apply lookup_insert_eq | |].
  - rewrite !lookup_insert_ne by discriminate. reflexivity.
  - eapply pod_body_same;
      [apply lookup_insert_eq | apply lookup_insert_eq | | apply lookup_insert_eq
      | apply lookup_insert_eq | | apply lookup_insert_eq | apply lookup_insert_eq |].
    + rewrite !lookup_insert_ne by discriminate. reflexivity.
    + rewrite !lookup_insert_ne by discriminate. reflexivity.
    + simpl. rewrite lookup_insert_ne by discriminate. reflexivity.
Qed.

End PodRules.

(** ** Beyond the claims: the loop of crontab-controller.py *)

Section LoopRuns.
Context `{PyText}.
Import CronTabController.

Lemma fields_of_crontab (ev : event) (name cron msg : string) :
  crontab_of ev = Some (name, cron, msg) →
  ∃ obj md sp,
    object ev = JObj obj
    ∧ obj !! "metadata" = Some (JObj md) ∧ md !! "name" = Some (JStr name)
    ∧ obj !! "spec" = Some (JObj sp)
    ∧ sp !! "cronSpec" = Some (JStr cron) ∧ sp !! "message" = Some (JStr msg).
Proof.
  unfold crontab_of, nested. intros Hev.
  destruct (object ev) as [| | | | |obj] eqn:Eo; try discriminate.
  destruct (obj !! "metadata") as [[| | | | |md]|] eqn:Emd; try discriminate.
  destruct (md !! "name") as [[| | |n| |]|] eqn:En; try discriminate.
  destruct (obj !! "spec") as [[| | | | |sp]|] eqn:Esp; try discriminate.
  destruct (sp !! "cronSpec") as [[| | |c| |]|] eqn:Ec; try discriminate.
  destruct (sp !! "message") as [[| | |m| |]|] eqn:Em; try discriminate.
  injection Hev as -> -> ->. exists obj, md, sp. repeat split; assumption.
Qed.

(** The handler on an event that carries a CronTab. *)
Lemma handle_crontab_event `{ClusterAPI} (ev : event) (name cron msg : string) (w : world) :
  crontab_of ev = Some (name, cron, msg) →
  handle_event ev w
  = if String.eqb (type ev) "ADDED"
    then Ok (create_cronjob (JStr name) (JStr cron) (JStr msg)
               (print ("📥 Detected new CronTab: " ++ name) w))
    else Ok w.
Proof.
  intros Hev.
  destruct (fields_of_crontab _ _ _ _ Hev) as (obj & md & sp & Ho & Emd & En & Esp & Ec & Em).
  unfold handle_event. rewrite Ho. simpl. rewrite Emd. simpl. rewrite En. simpl.
  rewrite Esp. simpl. rewrite Ec. simpl. rewrite Em. reflexivity.
Qed.

Lemma calls_of_create `{ClusterAPI} (name cron msg : json) (w : world) :
  calls (create_cronjob name cron msg w)
  = (calls w ++ [ {| call_namespace := "default";
                     call_body := cronjob_body name cron msg |} ])%list.
Proof.
  unfold create_cronjob. destruct (create_namespaced_cron_job _ _); reflexivity.
Qed.

Lemma handled_calls `{ClusterAPI} (ev : event) (w : world) :
  well_formed_event ev = true →
  ∃ w', handle_event ev w = Ok w'
        ∧ calls w' = (calls w ++ option_list (call_for ev))%list.
Proof.
  unfold well_formed_event, call_for.
  destruct (crontab_of ev) as [[[name cron] msg]|] eqn:Hev; [|discriminate]. intros _.
  rewrite (handle_crontab_event _ _ _ _ _ Hev).
  destruct (String.eqb (type ev) "ADDED"); eexists; (split; [reflexivity|]).
  - rewrite calls_of_create. reflexivity.
  - simpl. rewrite app_nil_r. reflexivity.
Qed.

Lemma omap_step {A B : Type} (f : A → option B) (x : A) (l : list A) :
  omap f (x :: l) = (option_list (f x) ++ omap f l)%list.
Proof. simpl. destruct (f x); reflexivity. Qed.

Lemma call_for_well_formed (ev : event) :
  well_formed_event ev = true →
  (type ev = "ADDED" → ∃ cl, call_for ev = Some cl ∧ call_namespace cl = "default")
  ∧ (type ev ≠ "ADDED" → call_for ev = None).
Proof.
  unfold well_formed_event, call_for.
  destruct (crontab_of ev) as [[[name cron] msg]|]; [|discriminate]. intros _.
  destruct (String.eqb_spec (type ev) "ADDED") as [Heq|Hne].
  - split; [|contradiction]. intros _. eexists. split; reflexivity.
  - split; [contradiction | reflexivity].
Qed.

(** X18.  On a stream of events that all carry a CronTab, the loop reads
    every event and ends without an exception, whatever the cluster answers;
    it has issued one create call per ADDED event, in the order of the
    events and all in namespace "default", and none for the other events. *)
Theorem one_create_call_per_added_event `{ClusterAPI} (events : list event) (w : world) :
  forallb well_formed_event events = true →
  ∃ w', watch_loop events w = (w', None)
        ∧ calls w' = (calls w ++ omap call_for events)%list
        ∧ length (omap call_for events)
          = length (filter (λ ev, type ev = "ADDED") events)
        ∧ Forall (λ cl, call_namespace cl = "default") (omap call_for events).
Proof.
  revert w. induction events as [|ev events IH]; intros w Hwf.
  - exists w. simpl. rewrite app_nil_r. repeat split. constructor.
  - cbn [forallb] in Hwf. apply andb_true_iff in Hwf as [Hev Hwf].
    destruct (handled_calls ev w Hev) as (w1 & Hrun & Hcalls).
    destruct (IH w1 Hwf) as (w' & Hloop & Hcalls' & Hlen & Hns).
    destruct (call_for_well_formed ev Hev) as [Hadded Hother].
    exists w'. cbn [watch_loop]. rewrite Hrun. split; [exact Hloop|].
    rewrite filter_cons, omap_step.
    destruct (decide (type ev = "ADDED")) as [Heq|Hne].
    + destruct (Hadded Heq) as (cl & Hcl & Hdefault). rewrite Hcl in *.
      split; [|split].
      * rewrite Hcalls', Hcalls. simpl. rewrite <- app_assoc. reflexivity.
      * simpl. rewrite Hlen. reflexivity.
      * constructor; assumption.
    + rewrite (Hother Hne) in *. split; [|split].
      * rewrite Hcalls', Hcalls. simpl. rewrite app_nil_r. reflexivity.
      * exact Hlen.
      * exact Hns.
Qed.

(** What two runs of the loop have in common when they start from worlds
    with the same calls, under two clusters. *)
Lemma loop_calls_agree (A B : ClusterAPI) (events : list event) (w1 w2 : world) :
  calls w1 = calls w2 →
  calls (@watch_loop _ A events w1).1 = calls (@watch_loop _ B events w2).1
  ∧ (@watch_loop _ A events w1).2 = (@watch_loop _ B events w2).2.
Proof.
  revert w1 w2. induction events as [|ev events IH]; intros w1 w2 Hcalls.
  - split; [exact Hcalls | reflexivity].
  - simpl. unfold handle_event.
    destruct (getitem (object ev) "metadata") as [md|e]; simpl; [|auto].
    destruct (getitem md "name") as [name|e]; simpl; [|auto].
    destruct (getitem (object ev) "spec") as [sp|e]; simpl; [|auto].
    destruct (getitem sp "cronSpec") as [cron|e]; simpl; [|auto].
    destruct (getitem sp "message") as [msg|e]; simpl; [|auto].
    destruct (String.eqb (type ev) "ADDED"); [|apply IH, Hcalls].
    apply IH. rewrite (@calls_of_create A), (@calls_of_create B). simpl.
    rewrite Hcalls. reflexivity.
Qed.

(** X19.  The cluster's answers change nothing but the printed lines: under
    any two clusters, on any stream of events, the loop issues the same
    create calls and ends the same way (at the same event with the same
    exception, or at the end of the stream). *)
Theorem cluster_answers_change_no_call (A B : ClusterAPI) (events : list event) (w : world) :
  calls (@watch_loop _ A events w).1 = calls (@watch_loop _ B events w).1
  ∧ (@watch_loop _ A events w).2 = (@watch_loop _ B events w).2.
Proof. apply loop_calls_agree. reflexivity. Qed.

(** X20.  A create call that raises is reported and dropped: the handler
    returns normally, the call counts as issued, and the line printed after
    "Detected new CronTab" is "Failed to create job" with the exception's
    text; when the call returns, the line is "Created CronJob" with the
    job's name. *)
Theorem failed_create_is_printed_and_dropped `{ClusterAPI}
    (ev : event) (name cron msg : string) (w : world) :
  crontab_of ev = Some (name, cron, msg) →
  type ev = "ADDED" →
  let call := {| call_namespace := "default";
                 call_body := cronjob_body (JStr name) (JStr cron) (JStr msg) |} in
  (∀ e, create_namespaced_cron_job (calls w) call = Some e →
        handle_event ev w
        = Ok {| calls := (calls w ++ [call])%list;
                stdout := (stdout w ++ [("📥 Detected new CronTab: " ++ name)%string;
                                        ("⚠️ Failed to create job: " ++ exn_str e)%string])%list |})
  ∧ (create_namespaced_cron_job (calls w) call = None →
     handle_event ev w
     = Ok {| calls := (calls w ++ [call])%list;
             stdout := (stdout w ++ [("📥 Detected new CronTab: " ++ name)%string;
                                     ("✅ Created CronJob: " ++ name ++ "-job")%string])%list |}).
Proof.
  intros Hev Htype call. rewrite (handle_crontab_event _ _ _ _ _ Hev), Htype.
  simpl. unfold create_cronjob, print. simpl. fold call.
  split; [intros e Hcall | intros Hcall]; rewrite Hcall; simpl;
    rewrite <- app_assoc; reflexivity.
Qed.

End LoopRuns.

(** ** Beyond the claims: the two webhooks on the same request *)

Section BothWebhooks.
Context `{PyText}.

Lemma pod_body_any_namespace (req : json) (a : pod_request) :
  as_pod_request req = Some a →
  PodValidator.validate_body req
  = if eq_str PodValidator.exempt_namespace (pod_namespace a)
    then Ok (review (pod_uid a) true "Skipped validation in webhook-demo namespace")
    else '(allowed, msg) ← PodValidator.check_containers (pod_containers a) true
                             "Pod is valid";
         Ok (review (pod_uid a) allowed msg).
Proof.
  unfold as_pod_request. intros Hreq.
  destruct req as [| | | | |r]; try discriminate.
  destruct (r !! "request") as [[| | | | |rq]|] eqn:Er; try discriminate.
  destruct (rq !! "uid") as [u|] eqn:Eu; try discriminate.
  destruct (rq !! "object") as [[| | | | |ob]|] eqn:Eo; try discriminate.
  destruct (dict_or_empty (ob !! "metadata")) as [meta|] eqn:Em; try discriminate.
  destruct (ob !! "spec") as [[| | | | |sp]|] eqn:Es; try discriminate.
  destruct (list_or_empty (sp !! "containers")) as [cs|] eqn:Ec; try discriminate.
  injection Hreq as <-. simpl in *.
  unfold PodValidator.validate_body.
  rewrite (truthy_dict _ _ _ Er). simpl.
  rewrite Er. rewrite bool_decide_eq_true_2 by eauto. simpl.
  rewrite Eu. simpl. rewrite Eo. simpl.
  rewrite (default_dict_or_empty _ _ Em). simpl.
  destruct (eq_str PodValidator.exempt_namespace (default (JStr "") (meta !! "namespace")));
    [reflexivity|]. simpl.
  rewrite Es. simpl. rewrite (default_list_or_empty _ _ Ec). reflexivity.
Qed.

(** validate-pod.py reads the same request, without the init containers. *)
Lemma pod_view_of_request (req : json) (a : admission_request) :
  as_request req = Some a →
  as_pod_request req
  = Some {| pod_uid := request_uid a;
            pod_namespace := request_namespace a;
            pod_containers := request_containers a |}.
Proof.
  unfold as_request, as_pod_request. intros Hreq.
  repeat case_match; simplify_eq; reflexivity.
Qed.

Lemma non_root_of_no_failure (container : json) :
  well_formed_container container = true →
  failure_messages container = [] →
  runs_as_non_root container = true.
Proof.
  intros Hwf Hnil. unfold failure_messages, rules in Hnil. simpl in Hnil.
  rewrite app_nil_r in Hnil.
  apply app_eq_nil in Hnil as [_ Hnil]. apply app_eq_nil in Hnil as [_ Hnil].
  apply app_eq_nil in Hnil as [_ H4].
  destruct (rule_passes _ _ Hwf H4) as [msg Hrun].
  destruct container as [| | | | |c]; try discriminate.
  simpl in Hwf. apply andb_true_iff in Hwf as [_ Hsc].
  simpl in Hrun. unfold ImageValidator.validate_security_context in Hrun.
  simpl. rewrite Hsc. simpl.
  unfold run_as_non_root_setting, nested. simpl in Hrun.
  destruct (c !! "securityContext") as [[| | | | |sc]|]; try discriminate; simpl in *.
  destruct (truthy (default (JBool false) (sc !! "runAsNonRoot"))); [reflexivity|].
  exfalso.
  destruct (truthy (default (JBool false) (sc !! "readOnlyRootFilesystem")));
    destruct (truthy (default (JBool true) (sc !! "allowPrivilegeEscalation")));
    discriminate.
Qed.

Lemma all_non_root_of_no_failure (cs : list json) :
  forallb well_formed_container cs = true →
  flat_map failure_messages cs = [] →
  forallb runs_as_non_root cs = true.
Proof.
  induction cs as [|c cs IH]; [reflexivity|]. simpl. intros Hwf Hnil.
  apply andb_true_iff in Hwf as [Hc Hcs]. apply app_eq_nil in Hnil as [Hcn Hcsn].
  rewrite (non_root_of_no_failure c Hc Hcn), (IH Hcs Hcsn). reflexivity.
Qed.

(** X21.  image-validator.py is the stricter webhook: a well-formed request
    it allows outside its exempt namespace is also allowed by
    validate-pod.py. *)
Theorem image_validator_is_stricter
    (req : json) (a : admission_request) (rev : admission_review) :
  as_request req = Some a →
  request_namespace a ≠ JStr ImageValidator.exempt_namespace →
  forallb well_formed_container (all_containers a) = true →
  ImageValidator.validate (Body req) = Ok rev →
  allowed (response rev) = true →
  ∃ rev', PodValidator.validate (Body req) = Ok rev'
          ∧ allowed (response rev') = true
          ∧ uid (response rev') = uid (response rev).
Proof.
  intros Hreq Hns Hwf Hrun Hallowed.
  rewrite (validate_well_formed _ _ Hreq Hns Hwf) in Hrun. injection Hrun as <-.
  assert (Hnil : flat_map failure_messages (all_containers a) = []).
  { destruct (flat_map failure_messages (all_containers a)); [reflexivity|].
    simpl in Hallowed. discriminate. }
  rewrite Hnil. simpl.
  assert (Hgood : forallb runs_as_non_root (request_containers a) = true).
  { unfold all_containers in *. rewrite forallb_app in Hwf.
    apply andb_true_iff in Hwf as [Hwf _].
    rewrite flat_map_app in Hnil. apply app_eq_nil in Hnil as [Hnil _].
    exact (all_non_root_of_no_failure _ Hwf Hnil). }
  unfold PodValidator.validate, try_except.
  rewrite (pod_body_any_namespace _ _ (pod_view_of_request _ _ Hreq)). simpl.
  destruct (eq_str PodValidator.exempt_namespace (request_namespace a)).
  - eexists. split; [reflexivity|]. split; reflexivity.
  - assert (Hcheck : PodValidator.check_containers (request_containers a) true "Pod is valid"
                     = Ok (true, "Pod is valid")).
    { pose proof (check_accepted_prefix (request_containers a) [] true "Pod is valid" Hgood)
        as Hpre.
      rewrite app_nil_r in Hpre. exact Hpre. }
    rewrite Hcheck. eexists. split; [reflexivity|]. split; reflexivity.
Qed.

End BothWebhooks.

(** ** The properties beyond the claims at concrete inputs *)

Section MoreExamples.

#[local] Existing Instance sample_text.
#[local] Existing Instance accepting_cluster.

Ltac no_such_char := unfold has_char; compute_done.

Lemma mapping_request_is_answered_witness :
  specless_envelope !! "request" = Some (JObj specless_request)
  ∧ (∃ rev, ImageValidator.validate (Body (JObj specless_envelope)) = Ok rev
            ∧ uid (response rev) = JStr "u6")
  ∧ (∃ rev, PodValidator.validate (Body (JObj specless_envelope)) = Ok rev
            ∧ uid (response rev) = JStr "u6").
Proof.
  assert (Er : specless_envelope !! "request" = Some (JObj specless_request))
    by reflexivity.
  split; [exact Er|].
  destruct (mapping_request_is_answered specless_envelope specless_request Er)
    as (Himage & Hpod & _).
  split; [exact Himage | exact Hpod].
Defined.

Lemma handler_raises_iff_witness :
  escaping_body (dict [("request", JStr "x")]) = true
  ∧ (∃ e, ImageValidator.validate (Body (dict [("request", JStr "x")])) = Raise e)
  ∧ (∃ e, PodValidator.validate (Body (dict [("request", JStr "x")])) = Raise e).
Proof.
  assert (Hesc : escaping_body (dict [("request", JStr "x")]) = true) by reflexivity.
  split; [exact Hesc|].
  destruct (handler_raises_iff (dict [("request", JStr "x")])) as [Himage Hpod].
  split; [exact (proj2 Himage Hesc) | exact (proj2 Hpod Hesc)].
Defined.

Lemma invalid_body_is_denied_witness :
  invalid_body (JArr [JStr "x"]) = true
  ∧ ImageValidator.validate (Body (JArr [JStr "x"]))
    = Ok (review (JStr "") false "Invalid request")
  ∧ PodValidator.validate (Body (JArr [JStr "x"]))
    = Ok (review (JStr "") false "Invalid request").
Proof.
  assert (Hinv : invalid_body (JArr [JStr "x"]) = true) by reflexivity.
  split; [exact Hinv|]. exact (invalid_body_is_denied (JArr [JStr "x"]) Hinv).
Defined.

Lemma missing_spec_is_denied_witness :
  specless_object !! "spec" = None
  ∧ ImageValidator.validate (Body (JObj specless_envelope))
    = Ok (review (JStr "u6") false "Validation error: 'spec'")
  ∧ PodValidator.validate (Body (JObj specless_envelope))
    = Ok (review (JStr "u6") false "Validation error: 'spec'").
Proof.
  assert (Es : specless_object !! "spec" = None) by reflexivity.
  split; [exact Es|].
  destruct (missing_spec_is_denied specless_envelope specless_request specless_object
              specless_metadata (JStr "u6") eq_refl eq_refl eq_refl eq_refl Es)
    as [Himage Hpod].
  split; [apply Himage | apply Hpod]; discriminate.
Defined.

Lemma unreadable_container_is_validation_error_witness :
  as_request unreadable = Some unreadable_view
  ∧ all_containers unreadable_view = ([untagged_app] ++ JNull :: [foreign_setup])%list
  ∧ ImageValidator.validate (Body unreadable)
    = Ok (review (JStr "u4") false
            "Validation error: 'NoneType' object has no attribute 'get'").
Proof.
  assert (Hreq : as_request unreadable = Some unreadable_view) by reflexivity.
  assert (Hall : all_containers unreadable_view
                 = ([untagged_app] ++ JNull :: [foreign_setup])%list) by reflexivity.
  split; [exact Hreq|]. split; [exact Hall|].
  refine (unreadable_container_is_validation_error unreadable unreadable_view
            [untagged_app] [foreign_setup] JNull Hreq _ Hall _ _);
    [discriminate | reflexivity | reflexivity].
Defined.

Lemma no_containers_is_allowed_witness :
  as_request empty_pod = Some empty_pod_view
  ∧ all_containers empty_pod_view = []
  ∧ ImageValidator.validate (Body empty_pod)
    = Ok (review (JStr "u5") true "All validations passed").
Proof.
  assert (Hreq : as_request empty_pod = Some empty_pod_view) by reflexivity.
  split; [exact Hreq|]. split; [reflexivity|].
  refine (no_containers_is_allowed empty_pod empty_pod_view Hreq _ _);
    [discriminate | reflexivity].
Defined.

Lemma tag_is_text_after_last_colon_witness :
  ¬ has_char ":" "latest" ∧ ¬ has_char ":" "1.21"
  ∧ ImageValidator.validate_image_tag (JStr "localhost:5000/nginx:latest") (JStr "web")
    = Ok (true, "Container 'web': Tag 'latest' is blocked. Use specific version tags.")
  ∧ ImageValidator.validate_image_tag (JStr "nginx:1.21") (JStr "web") = Ok (false, "").
Proof.
  assert (H1 : ¬ has_char ":" "latest") by no_such_char.
  assert (H2 : ¬ has_char ":" "1.21") by no_such_char.
  split; [exact H1|]. split; [exact H2|]. split.
  - exact (proj1 (tag_is_text_after_last_colon "localhost:5000/nginx" "latest"
                    (JStr "web") H1) eq_refl).
  - refine (proj2 (tag_is_text_after_last_colon "nginx" "1.21" (JStr "web") H2) _).
    discriminate.
Defined.

Lemma registry_port_hides_missing_tag_witness :
  ¬ has_char ":" "5000" ∧ ¬ has_char ":" "app"
  ∧ ImageValidator.validate_image_tag (JStr "localhost:5000/app") (JStr "web")
    = Ok (false, "").
Proof.
  assert (H1 : ¬ has_char ":" "5000") by no_such_char.
  assert (H2 : ¬ has_char ":" "app") by no_such_char.
  split; [exact H1|]. split; [exact H2|].
  exact (registry_port_hides_missing_tag "localhost" "5000" "app" (JStr "web") H1 H2).
Defined.

Lemma missing_image_is_reported_once_witness :
  truthy (image_of (JObj bare_container)) = false
  ∧ rule_failure Registry (JObj bare_container) = ["Container 'web': Image is required"]
  ∧ rule_failure Tag (JObj bare_container) = [].
Proof.
  assert (Himg : truthy (image_of (JObj bare_container)) = false) by reflexivity.
  split; [exact Himg|]. exact (missing_image_is_reported_once bare_container Himg).
Defined.

Lemma empty_quantity_counts_as_missing_witness :
  resources_shape empty_cpu_limit = true
  ∧ quantity empty_cpu_limit "limits" "cpu" = Some (JStr "")
  ∧ unusable_quantities empty_cpu_limit = ["CPU limits"]
  ∧ ImageValidator.validate_resources (JObj empty_cpu_limit) (JStr "web")
    = Ok (false, "Container 'web': Missing CPU limits").
Proof.
  assert (Hshape : resources_shape empty_cpu_limit = true) by reflexivity.
  assert (Hlist : unusable_quantities empty_cpu_limit = ["CPU limits"]) by reflexivity.
  split; [exact Hshape|]. split; [reflexivity|]. split; [exact Hlist|].
  change "Container 'web': Missing CPU limits"
    with (ImageValidator.container_prefix (JStr "web") ++ "Missing "
            ++ join ", " ["CPU limits"]).
  rewrite <- Hlist.
  apply (proj1 (proj2 (empty_quantity_counts_as_missing empty_cpu_limit (JStr "web")
                         Hshape))).
  rewrite Hlist. discriminate.
Defined.

Lemma security_message_lists_unmet_settings_witness :
  typed_security_context bare_container = true
  ∧ unmet_settings bare_container
    = ["runAsNonRoot=true"; "allowPrivilegeEscalation=false";
       "readOnlyRootFilesystem=true"]
  ∧ ImageValidator.validate_security_context (JObj bare_container) (JStr "web")
    = Ok (false, "Container 'web': Required runAsNonRoot=true, "
                   ++ "allowPrivilegeEscalation=false, readOnlyRootFilesystem=true").
Proof.
  assert (Htyped : typed_security_context bare_container = true) by reflexivity.
  assert (Hlist : unmet_settings bare_container
                  = ["runAsNonRoot=true"; "allowPrivilegeEscalation=false";
                     "readOnlyRootFilesystem=true"]) by reflexivity.
  split; [exact Htyped|]. split; [exact Hlist|].
  change ("Container 'web': Required runAsNonRoot=true, "
            ++ "allowPrivilegeEscalation=false, readOnlyRootFilesystem=true")
    with (ImageValidator.container_prefix (JStr "web") ++ "Required "
            ++ join ", " ["runAsNonRoot=true"; "allowPrivilegeEscalation=false";
                          "readOnlyRootFilesystem=true"]).
  rewrite <- Hlist.
  apply (proj2 (security_message_lists_unmet_settings bare_container (JStr "web") Htyped)).
  rewrite Hlist. discriminate.
Defined.

(** The text before the first [c] is determined by the string. *)
Lemma first_segment_unique (c : ascii) (a1 t1 a2 t2 : string) :
  a1 ++ String c t1 = a2 ++ String c t2 →
  ¬ has_char c a1 → ¬ has_char c a2 →
  a1 = a2.
Proof.
  revert a2. induction a1 as [|x a1 IH]; intros [|y a2]; simpl; intros Heq H1 H2.
  - reflexivity.
  - injection Heq as <- _. exfalso. apply H2. left.
  - injection Heq as -> _. exfalso. apply H1. left.
  - injection Heq as <- Heq. f_equal. apply IH; [exact Heq| |].
    + intros Hin. apply H1. right. exact Hin.
    + intros Hin. apply H2. right. exact Hin.
Qed.

Lemma compliant_app_is_compliant : compliant compliant_app.
Proof.
  eexists _, "docker.io/library/app:1.4". split; [reflexivity|].
  split; [reflexivity|]. split; [|split].
  - exists "docker.io/library/app", "1.4".
    split; [reflexivity|]. split; [no_such_char | discriminate].
  - intros registry rest Heq Hslash _.
    assert (Hseg : "docker.io" = registry).
    { apply (first_segment_unique "/" "docker.io" "library/app:1.4" registry rest);
        [exact Heq | no_such_char | exact Hslash]. }
    subst registry. compute_done.
  - repeat split; try (eexists; split; reflexivity).
Qed.

Lemma admitted_pod_is_compliant_witness :
  as_request admitted = Some admitted_view
  ∧ ImageValidator.validate (Body admitted)
    = Ok (review (JStr "u3") true "All validations passed")
  ∧ ∀ c, c ∈ all_containers admitted_view → compliant c.
Proof.
  assert (Hreq : as_request admitted = Some admitted_view) by reflexivity.
  assert (Hrun : ImageValidator.validate (Body admitted)
                 = Ok (review (JStr "u3") true "All validations passed")) by reflexivity.
  split; [exact Hreq|]. split; [exact Hrun|].
  refine (admitted_pod_is_compliant admitted admitted_view _ Hreq _ _ Hrun _);
    [discriminate | reflexivity | reflexivity].
Defined.

Lemma compliant_pod_is_admitted_witness :
  as_request admitted = Some admitted_view
  ∧ ImageValidator.validate (Body admitted)
    = Ok (review (JStr "u3") true "All validations passed").
Proof.
  assert (Hreq : as_request admitted = Some admitted_view) by reflexivity.
  split; [exact Hreq|].
  refine (compliant_pod_is_admitted admitted admitted_view Hreq _ _); [discriminate|].
  intros c Hc. apply list_elem_of_singleton in Hc. subst c.
  split; [exact compliant_app_is_compliant | reflexivity].
Defined.

Lemma pod_validator_names_first_offender_witness :
  as_pod_request root_pod = Some root_pod_view
  ∧ pod_containers root_pod_view
    = ([non_root_container] ++ JObj root_container :: [JNull])%list
  ∧ runs_as_root (JObj root_container) = true
  ∧ PodValidator.validate (Body root_pod)
    = Ok (review (JStr "u7") false "Container 'db' must set runAsNonRoot=true").
Proof.
  assert (Hreq : as_pod_request root_pod = Some root_pod_view) by reflexivity.
  assert (Hcs : pod_containers root_pod_view
                = ([non_root_container] ++ JObj root_container :: [JNull])%list)
    by reflexivity.
  assert (Hbad : runs_as_root (JObj root_container) = true) by reflexivity.
  split; [exact Hreq|]. split; [exact Hcs|]. split; [exact Hbad|].
  refine (pod_validator_names_first_offender root_pod root_pod_view [non_root_container]
            [JNull] root_container (JStr "db") Hreq _ Hcs _ Hbad _);
    [discriminate | reflexivity | reflexivity].
Defined.

Lemma unnamed_offender_is_validation_error_witness :
  as_pod_request nameless_pod = Some nameless_pod_view
  ∧ nameless_container !! "name" = None
  ∧ PodValidator.validate (Body nameless_pod)
    = Ok (review (JStr "u8") false "Validation error: 'name'").
Proof.
  assert (Hreq : as_pod_request nameless_pod = Some nameless_pod_view) by reflexivity.
  assert (Hname : nameless_container !! "name" = None) by reflexivity.
  split; [exact Hreq|]. split; [exact Hname|].
  refine (unnamed_offender_is_validation_error nameless_pod nameless_pod_view
            [non_root_container] [] nameless_container Hreq _ _ _ _ Hname);
    [discriminate | reflexivity | reflexivity | reflexivity].
Defined.

Lemma pod_is_valid_iff_all_run_as_non_root_witness :
  as_pod_request non_root_pod = Some non_root_pod_view
  ∧ forallb runs_as_non_root (pod_containers non_root_pod_view) = true
  ∧ ∃ rev, PodValidator.validate (Body non_root_pod) = Ok rev
           ∧ rev = review (JStr "u9") true "Pod is valid".
Proof.
  assert (Hreq : as_pod_request non_root_pod = Some non_root_pod_view) by reflexivity.
  assert (Hgood : forallb runs_as_non_root (pod_containers non_root_pod_view) = true)
    by reflexivity.
  split; [exact Hreq|]. split; [exact Hgood|].
  destruct (pod_is_valid_iff_all_run_as_non_root non_root_pod non_root_pod_view Hreq)
    as (rev & Hrun & _ & _ & Hvalid); [discriminate | reflexivity |].
  exists rev. split; [exact Hrun | exact (Hvalid Hgood)].
Defined.

Lemma one_create_call_per_added_event_witness :
  forallb well_formed_event demo_stream = true
  ∧ omap call_for demo_stream = [demo_call; demo_call]
  ∧ ∃ w', CronTabController.watch_loop demo_stream quiet_world = (w', None)
          ∧ CronTabController.calls w' = [demo_call; demo_call].
Proof.
  assert (Hwf : forallb well_formed_event demo_stream = true) by reflexivity.
  assert (Hcalls : omap call_for demo_stream = [demo_call; demo_call]) by reflexivity.
  split; [exact Hwf|]. split; [exact Hcalls|].
  destruct (one_create_call_per_added_event demo_stream quiet_world Hwf)
    as (w' & Hloop & Hissued & _).
  exists w'. split; [exact Hloop|]. rewrite Hissued, Hcalls. reflexivity.
Defined.

Lemma failed_create_is_printed_and_dropped_witness :
  crontab_of (demo_event "ADDED") = Some ("demo", "*/1 * * * *", "hi")
  ∧ CronTabController.handle_event (H0 := rejecting_cluster) (demo_event "ADDED") quiet_world
    = Ok {| CronTabController.calls := [demo_call];
            CronTabController.stdout :=
              ["📥 Detected new CronTab: demo";
               "⚠️ Failed to create job: 409 Conflict"] |}.
Proof.
  assert (Hev : crontab_of (demo_event "ADDED") = Some ("demo", "*/1 * * * *", "hi"))
    by reflexivity.
  split; [exact Hev|].
  exact (proj1 (failed_create_is_printed_and_dropped (H0 := rejecting_cluster)
                  (demo_event "ADDED") "demo" "*/1 * * * *" "hi" quiet_world Hev eq_refl)
           (External "409 Conflict") eq_refl).
Defined.

Lemma image_validator_is_stricter_witness :
  as_request admitted = Some admitted_view
  ∧ ImageValidator.validate (Body admitted)
    = Ok (review (JStr "u3") true "All validations passed")
  ∧ ∃ rev', PodValidator.validate (Body admitted) = Ok rev'
            ∧ allowed (response rev') = true
            ∧ uid (response rev') = JStr "u3".
Proof.
  assert (Hreq : as_request admitted = Some admitted_view) by reflexivity.
  assert (Hrun : ImageValidator.validate (Body admitted)
                 = Ok (review (JStr "u3") true "All validations passed")) by reflexivity.
  split; [exact Hreq|]. split; [exact Hrun|].
  refine (image_validator_is_stricter admitted admitted_view _ Hreq _ _ Hrun _);
    [discriminate | reflexivity | reflexivity].
Defined.

End MoreExamples.
